(** * btx indexer: a shallow embedding of [btx/processing/indexer.py]

    The module wraps CrystFEL's indexamajig: the class [Indexer] derives file
    paths from the run identity, [write_exe] writes a shell script holding the
    indexing command, and [report] parses two text files, writes a summary
    file and posts a fixed-shape payload to the elog.

    Layout of this development:
    - [Py]: the pieces of Python's semantics the module relies on (string
      methods, [int], integer true division, format specs, [os.path.join]);
    - [Os]: the outside world (environment, file store, console, HTTP, grep);
    - the [Indexer] record and its methods, in an exception-aware state monad;
    - the properties of the path templates, the command line and the report. *)

From Stdlib Require Import ZArith Bool List Ascii String Lia.
From Stdlib Require Import Floats.SpecFloat.
From stdpp Require Import base option gmap strings pretty.

Local Open Scope Z_scope.

(* ===================================================================== *)
(** * Python primitives *)
(* ===================================================================== *)

Module Py.

(** ** Exceptions

    The exception classes the module can raise, plus [OtherError] for
    whatever a library call (here [requests.post]) may throw. *)
Inductive exn : Type :=
  | KeyError (key : string)
  | ValueError
  | IndexError
  | ZeroDivisionError
  | OverflowError
  | OtherError (name : string).

(** An expression that may raise. *)
Definition result (A : Type) : Type := exn + A.

#[global] Instance result_ret : MRet result := fun A x => inr x.
#[global] Instance result_bind : MBind result :=
  fun A B k r => match r with inl e => inl e | inr x => k x end.

(** ** [str] methods *)

(** [f"{x}"] for an attribute that holds [None] or a [str]. *)
Definition str_opt (x : option string) : string :=
  match x with
  | None => "None"
  | Some s => s
  end.

(** [s.startswith(c)] and [s.endswith(c)] for a one-character [c]. *)
Definition startswith (s : string) (c : ascii) : bool :=
  match s with
  | EmptyString => false
  | String a _ => Ascii.eqb a c
  end.

Fixpoint endswith (s : string) (c : ascii) : bool :=
  match s with
  | EmptyString => false
  | String a EmptyString => Ascii.eqb a c
  | String _ r => endswith r c
  end.

(** [s.split(c)] for a one-character separator: never the empty list. *)
Fixpoint split (c : ascii) (s : string) : list string :=
  match s with
  | EmptyString => [EmptyString]
  | String a r =>
      if Ascii.eqb a c then EmptyString :: split c r
      else match split c r with
           | h :: t => String a h :: t
           | [] => [String a EmptyString]
           end
  end.

(** [l[1]], [l[0]], ...: an index past the end raises [IndexError]. *)
Definition index {A : Type} (l : list A) (i : nat) : result A :=
  match nth_error l i with
  | Some x => inr x
  | None => inl IndexError
  end.

(** [s.strip(c)] for a one-character set [c]. *)
Fixpoint lstrip (c : ascii) (s : string) : string :=
  match s with
  | EmptyString => EmptyString
  | String a r => if Ascii.eqb a c then lstrip c r else s
  end.

Fixpoint rstrip (c : ascii) (s : string) : string :=
  match s with
  | EmptyString => EmptyString
  | String a r =>
      match rstrip c r with
      | EmptyString => if Ascii.eqb a c then EmptyString else String a EmptyString
      | r' => String a r'
      end
  end.

Definition strip (c : ascii) (s : string) : string := rstrip c (lstrip c s).

(** [s.startswith(prefix)] for a string [prefix]. *)
Fixpoint startswith_str (prefix s : string) : bool :=
  match prefix with
  | EmptyString => true
  | String a prefix' =>
      match s with
      | EmptyString => false
      | String b s' => Ascii.eqb a b && startswith_str prefix' s'
      end
  end.

(** [needle in s]. *)
Fixpoint contains (needle s : string) : bool :=
  startswith_str needle s ||
  match s with
  | EmptyString => false
  | String _ r => contains needle r
  end.

(** Text-mode reading translates ["\r\n"] and a lone ["\r"] to ["\n"]
    (universal newlines). *)
Fixpoint universal_newlines (s : string) : string :=
  match s with
  | EmptyString => EmptyString
  | String a r =>
      if Ascii.eqb a "013" then
        match r with
        | String b r' =>
            if Ascii.eqb b "010" then String "010" (universal_newlines r')
            else String "010" (universal_newlines r)
        | EmptyString => String "010" EmptyString
        end
      else String a (universal_newlines r)
  end.

(** [f.readlines()] on already translated text: every line keeps its
    ["\n"]; a last line without one is kept as it is. *)
Fixpoint readlines (s : string) : list string :=
  match s with
  | EmptyString => []
  | String a r =>
      if Ascii.eqb a "010" then String a EmptyString :: readlines r
      else match readlines r with
           | [] => [String a EmptyString]
           | h :: t => String a h :: t
           end
  end.

(** ** [int(s)]

    Surrounding white space is dropped, one sign is allowed, and single
    underscores may separate digits. Only ASCII white space and digits are
    recognised: a string with other characters is a [ValueError] here, and
    the interpreter's cap on the number of digits is left out. *)
Definition isspace (a : ascii) : bool :=
  let n := nat_of_ascii a in
  ((9 <=? n)%nat && (n <=? 13)%nat) || (n =? 32)%nat.

Fixpoint lstrip_ws (s : string) : string :=
  match s with
  | EmptyString => EmptyString
  | String a r => if isspace a then lstrip_ws r else s
  end.

Fixpoint rstrip_ws (s : string) : string :=
  match s with
  | EmptyString => EmptyString
  | String a r =>
      match rstrip_ws r with
      | EmptyString => if isspace a then EmptyString else String a EmptyString
      | r' => String a r'
      end
  end.

Fixpoint digits (s : string) (acc : Z) (after_digit : bool) : option Z :=
  match s with
  | EmptyString => if after_digit then Some acc else None
  | String a r =>
      match Ascii.is_nat a with
      | Some d => digits r (10 * acc + Z.of_nat d) true
      | None =>
          if Ascii.eqb a "_" && after_digit then digits r acc false else None
      end
  end.

Definition int (s : string) : result Z :=
  let t := rstrip_ws (lstrip_ws s) in
  let parsed :=
    match t with
    | String "-" r => Z.opp <$> digits r 0 false
    | String "+" r => digits r 0 false
    | _ => digits t 0 false
    end in
  match parsed with
  | Some z => inr z
  | None => inl ValueError
  end.

(** ** Integer formatting *)

(** [str(n)], also [f"{n}"]. *)
Definition str_int (n : Z) : string := pretty n.

Fixpoint zeros (k : nat) : string :=
  match k with
  | O => EmptyString
  | S k' => String "0" (zeros k')
  end.

(** [f"{n:04}"]: the sign first, then zeros up to a total width of four,
    then the digits; longer numbers are not cut. *)
Definition format_04 (n : Z) : string :=
  let sign := if n <? 0 then "-" else "" in
  let body := pretty (Z.abs n) in
  sign +:+ zeros (4 - String.length sign - String.length body) +:+ body.

(** ** Integer true division and the [.2f] format

    [a / b] on two [int]s is the exact quotient rounded once to the nearest
    binary64 number, ties to even; a zero divisor raises and a quotient
    beyond the largest double raises [OverflowError]. The operands enter
    [SFdiv] as exact, unnormalised mantissas with exponent 0, so the only
    rounding is the one of the quotient. *)
Definition float : Type := spec_float.

Definition exact (n : Z) : float :=
  match n with
  | Z0 => S754_zero false
  | Zpos p => S754_finite false p 0
  | Zneg p => S754_finite true p 0
  end.

Definition true_div (a b : Z) : result float :=
  if b =? 0 then inl ZeroDivisionError
  else match SFdiv 53 1024 (exact a) (exact b) with
       | S754_infinity _ | S754_nan => inl OverflowError
       | q => inr q
       end.

(** The integer nearest to [m * 2^e * 100], ties to even. *)
Definition round_hundredths (m : positive) (e : Z) : Z :=
  if 0 <=? e then Z.pos m * 2 ^ e * 100
  else
    let den := 2 ^ (- e) in
    let q := (Z.pos m * 100) / den in
    let r := (Z.pos m * 100) mod den in
    match Z.compare (2 * r) den with
    | Lt => q
    | Gt => q + 1
    | Eq => if Z.even q then q else q + 1
    end.

Definition two_digits (k : Z) : string :=
  pretty (k / 10) +:+ pretty (k mod 10).

(** [f"{x:.2f}"]: the exact binary value rounded to two decimals, ties to
    even, with the sign of [x] kept even when the digits are all zero. *)
Definition format_2f (x : float) : string :=
  let sign (s : bool) := if s then "-" else "" in
  match x with
  | S754_zero s => sign s +:+ "0.00"
  | S754_finite s m e =>
      let k := round_hundredths m e in
      sign s +:+ pretty (k / 100) +:+ "." +:+ two_digits (k mod 100)
  | S754_infinity s => sign s +:+ "inf"
  | S754_nan => "nan"
  end.

(** ** [os.path.join(a, b)] (posixpath) *)
Definition os_path_join (a b : string) : string :=
  if startswith b "/" then b
  else if (String.length a =? 0)%nat || endswith a "/" then a +:+ b
  else a +:+ "/" +:+ b.

End Py.

(* ===================================================================== *)
(** * The outside world *)
(* ===================================================================== *)

Module Os.
Import Py.

(** One entry of the JSON array sent to the elog:
    [{"key": ..., "value": ...}]. *)
Record entry : Type := Entry { key : string; value : string }.

(** What the process can only read: [os.environ], the rank MPI hands out,
    the absolute path of the running script, and how the elog answers a
    POST ([Some e]: [requests.post] raises [e]). *)
Record World : Type := {
  environ : gmap string string;
  mpi_rank : Z;
  script_file : string;
  post_raises : string -> list entry -> option exn;
}.

(** What the process changes: the files (path to text), the lines printed
    on the console, and the POST requests issued, oldest first. *)
Record State : Type := {
  files : gmap string string;
  console : list string;
  posts : list (string * list entry);
}.

(** Statements: they run from a state, end in a state, and either return
    or raise. What was written before a [raise] stays written. *)
Definition M (A : Type) : Type := State -> State * result A.

Definition ret {A : Type} (x : A) : M A := fun st => (st, inr x).

Definition raise {A : Type} (e : exn) : M A := fun st => (st, inl e).

Definition bind {A B : Type} (k : A -> M B) (c : M A) : M B :=
  fun st =>
    match c st with
    | (st', inr x) => k x st'
    | (st', inl e) => (st', inl e)
    end.

(** stdpp's monad notation: [x ← c; k] and [c;; k]. *)
#[global] Instance M_ret : MRet M := @ret.
#[global] Instance M_bind : MBind M := @bind.

(** An expression that may raise, used as a statement. *)
Definition lift {A : Type} (r : result A) : M A := fun st => (st, r).

(** [try: body  except: handler] with a bare [except]. *)
Definition try_except (body : M unit) (handler : M unit) : M unit :=
  fun st =>
    match body st with
    | (st', inr tt) => (st', inr tt)
    | (st', inl _) => handler st'
    end.

(** A list comprehension [[f(item) for item in l]] whose body may raise. *)
Fixpoint comprehension {A B : Type} (f : A -> M B) (l : list A) : M (list B) :=
  match l with
  | [] => mret []
  | item :: rest =>
      y ← f item;
      ys ← comprehension f rest;
      mret (y :: ys)
  end.

(** The three ways a statement changes the state. *)
Definition printed (s : string) (st : State) : State :=
  {| files := files st; console := console st ++ [s]; posts := posts st |}.

Definition stored (fs : gmap string string) (st : State) : State :=
  {| files := fs; console := console st; posts := posts st |}.

Definition posted (url : string) (payload : list entry) (st : State) : State :=
  {| files := files st; console := console st;
     posts := posts st ++ [(url, payload)] |}.

(** [print(s)] *)
Definition print (s : string) : M unit := fun st => (printed s st, inr tt).

(** [open(path, 'w')] empties or creates the file; [f.write(s)] appends, and
    what was written is in the file by the time the [with] block is left,
    also when it is left by an exception. The store is flat: a write never
    fails for want of a directory. *)
Definition open_w (path : string) : M unit :=
  fun st => (stored (<[path := EmptyString]> (files st)) st, inr tt).

Definition write (path s : string) : M unit :=
  fun st =>
    (stored (<[path := default EmptyString (files st !! path) +:+ s]> (files st)) st,
     inr tt).

(** [open(path, 'r').readlines()] *)
Definition read_lines (path : string) : M (list string) :=
  fun st =>
    match files st !! path with
    | Some text => (st, inr (readlines (universal_newlines text)))
    | None => (st, inl (OtherError "FileNotFoundError"))
    end.

(** The lines of a file as grep sees them, without their newline, and the
    text grep prints for a list of lines. *)
Definition file_lines (text : string) : list string :=
  if endswith text "010" then removelast (split "010" text)
  else if (String.length text =? 0)%nat then []
  else split "010" text.

Fixpoint unlines (l : list string) : string :=
  match l with
  | [] => EmptyString
  | h :: t => h +:+ String "010" (unlines t)
  end.

(** The standard output of [grep needle path], as [Popen(...).communicate()]
    returns it in text mode: the lines of the file that contain [needle],
    each closed by a newline; nothing when the file is missing (grep then
    complains on stderr only). Both needles in this module are plain text,
    so matching is a substring test. *)
Definition grep_stdout (fs : gmap string string) (needle path : string) : string :=
  match fs !! path with
  | Some text =>
      universal_newlines
        (unlines (List.filter (fun l => contains needle l) (file_lines text)))
  | None => EmptyString
  end.

Definition grep (needle path : string) : M string :=
  fun st => (st, inr (grep_stdout (files st) needle path)).

(** [requests.post(url, json=payload)]: the request is issued, then the
    call returns or raises as the world decides. *)
Definition requests_post (w : World) (url : string) (payload : list entry) : M unit :=
  fun st =>
    match post_raises w url payload with
    | Some e => (posted url payload st, inl e)
    | None => (posted url payload st, inr tt)
    end.

(** [os.environ[name]] *)
Definition environ_item (w : World) (name : string) : result string :=
  match environ w !! name with
  | Some v => inr v
  | None => inl (KeyError name)
  end.

End Os.

(* ===================================================================== *)
(** * class Indexer *)
(* ===================================================================== *)

Module Indexer.
Import Py Os.

(** The attributes of an [Indexer] object. [run] is an [int] (argparse
    converts it); [geom], [cell] and [tag_cxi] may be [None]. *)
Record t : Type := {
  (* general parameters *)
  exp : string;
  run : Z;
  det_type : string;
  taskdir : string;
  tag : string;
  tag_cxi : option string;
  (* indexing parameters *)
  geom : option string;
  cell : option string;
  rad : string;
  methods : string;
  tolerance : string;
  no_revalidate : bool;
  multi : bool;
  profile : bool;
  (* set by _retrieve_paths *)
  lst : string;
  stream : string;
  tmp_exe : string;
  peakfinding_summary : string;
  indexing_summary : string;
  script_path : string;
  python_path : string;
  (* set by _parallel_logic *)
  nproc : string;
  rank : Z;
}.

(** [f'r{self.run:04}'], the stem every path shares. *)
Definition rdir (self : t) : string := "r" +:+ format_04 (run self).

(** [_retrieve_paths]: normalises [tag_cxi], then derives the paths. The
    last statement reads [os.environ['WHICHPYTHON']] and may raise. *)
Definition _retrieve_paths (w : World) (self : t) : result t :=
  let tag_cxi' :=
    match tag_cxi self with
    | Some s =>
        if negb (String.eqb s "") && negb (startswith s "_")
        then Some ("_" +:+ s) else Some s
    | None => Some ""
    end in
  let self := {|
    exp := exp self; run := run self; det_type := det_type self;
    taskdir := taskdir self; tag := tag self; tag_cxi := tag_cxi';
    geom := geom self; cell := cell self; rad := rad self;
    methods := methods self; tolerance := tolerance self;
    no_revalidate := no_revalidate self; multi := multi self;
    profile := profile self;
    lst := lst self; stream := stream self; tmp_exe := tmp_exe self;
    peakfinding_summary := peakfinding_summary self;
    indexing_summary := indexing_summary self;
    script_path := script_path self; python_path := python_path self;
    nproc := nproc self; rank := rank self |} in
  let lst' :=
    os_path_join (taskdir self)
      (rdir self +:+ "/" +:+ rdir self +:+ str_opt (tag_cxi self) +:+ ".lst") in
  let stream' :=
    os_path_join (taskdir self) (rdir self +:+ "_" +:+ tag self +:+ ".stream") in
  let tmp_exe' :=
    match environ w !! "TMP_EXE" with
    | Some v => v
    | None =>
        os_path_join (taskdir self)
          (rdir self +:+ "/index_" +:+ rdir self +:+ ".sh")
    end in
  let peakfinding_summary' :=
    os_path_join (taskdir self)
      (rdir self +:+ "/peakfinding" +:+ str_opt (tag_cxi self) +:+ ".summary") in
  let indexing_summary' :=
    os_path_join (taskdir self)
      (rdir self +:+ "/indexing_" +:+ tag self +:+ ".summary") in
  match environ_item w "WHICHPYTHON" with
  | inl e => inl e
  | inr python_path' =>
      inr {|
        exp := exp self; run := run self; det_type := det_type self;
        taskdir := taskdir self; tag := tag self; tag_cxi := tag_cxi self;
        geom := geom self; cell := cell self; rad := rad self;
        methods := methods self; tolerance := tolerance self;
        no_revalidate := no_revalidate self; multi := multi self;
        profile := profile self;
        lst := lst'; stream := stream'; tmp_exe := tmp_exe';
        peakfinding_summary := peakfinding_summary';
        indexing_summary := indexing_summary';
        script_path := script_file w; python_path := python_path';
        nproc := nproc self; rank := rank self |}
  end.

(** [_parallel_logic]: the core count comes from [NCORES]; with more than
    one core the rank is MPI's, otherwise it is 0. With more than one core
    the source imports mpi4py first; the import and [Get_rank] are taken to
    succeed, [mpi_rank] being what they give. *)
Definition _parallel_logic (w : World) (self : t) : result t :=
  match environ_item w "NCORES" with
  | inl e => inl e
  | inr nproc' =>
      match int nproc' with
      | inl e => inl e
      | inr n =>
          inr {|
            exp := exp self; run := run self; det_type := det_type self;
            taskdir := taskdir self; tag := tag self; tag_cxi := tag_cxi self;
            geom := geom self; cell := cell self; rad := rad self;
            methods := methods self; tolerance := tolerance self;
            no_revalidate := no_revalidate self; multi := multi self;
            profile := profile self;
            lst := lst self; stream := stream self; tmp_exe := tmp_exe self;
            peakfinding_summary := peakfinding_summary self;
            indexing_summary := indexing_summary self;
            script_path := script_path self; python_path := python_path self;
            nproc := nproc';
            rank := if 1 <? n then mpi_rank w else 0 |}
      end
  end.

(** [__init__]: stores the arguments, then calls [_retrieve_paths] and
    [_parallel_logic]. The attributes those two assign do not exist before;
    here they start empty and are never read before they are assigned. *)
Definition __init__ (w : World)
    (exp : string) (run : Z) (det_type tag taskdir : string)
    (geom cell : option string) (int_rad methods tolerance : string)
    (tag_cxi : option string) (no_revalidate multi profile : bool) : result t :=
  let self := {|
    exp := exp; run := run; det_type := det_type;
    taskdir := taskdir; tag := tag; tag_cxi := tag_cxi;
    geom := geom; cell := cell; rad := int_rad;
    methods := methods; tolerance := tolerance;
    no_revalidate := no_revalidate; multi := multi; profile := profile;
    lst := ""; stream := ""; tmp_exe := "";
    peakfinding_summary := ""; indexing_summary := "";
    script_path := ""; python_path := ""; nproc := ""; rank := 0 |} in
  match _retrieve_paths w self with
  | inl e => inl e
  | inr self => _parallel_logic w self
  end.

(** The keyword defaults of [__init__]. *)
Definition new (w : World)
    (exp : string) (run : Z) (det_type tag taskdir : string)
    (geom : option string) : result t :=
  __init__ w exp run det_type tag taskdir geom
    None "4,5,6" "mosflm" "5,5,5,1.5" None true true true.

(** ** write_exe *)

(** The local [command] of [write_exe]: one f-string, then a flag appended
    for each option that is set. *)
Definition command (self : t) : string :=
  let command :=
    "indexamajig -i " +:+ lst self +:+ " -o " +:+ stream self
    +:+ " -j " +:+ nproc self +:+ " -g " +:+ str_opt (geom self)
    +:+ " --peaks=cxi --int-rad=" +:+ rad self
    +:+ " --indexing=" +:+ methods self
    +:+ " --tolerance=" +:+ tolerance self in
  let command :=
    match cell self with
    | Some c => command +:+ (" --pdb=" +:+ c)
    | None => command
    end in
  let command := if no_revalidate self then command +:+ " --no-revalidate" else command in
  let command := if multi self then command +:+ " --multi" else command in
  let command := if profile self then command +:+ " --profile" else command in
  command.

(** The local [command_report] of [write_exe]. *)
Definition command_report (self : t) : string :=
  let command_report :=
    python_path self +:+ " " +:+ script_path self +:+ " -e " +:+ exp self
    +:+ " -r " +:+ str_int (run self) +:+ " -d " +:+ det_type self
    +:+ " --taskdir " +:+ taskdir self +:+ " --report --tag " +:+ tag self
    +:+ " " in
  if negb (bool_decide (tag_cxi self = Some ""))
  then command_report +:+ (" --tag_cxi " +:+ str_opt (tag_cxi self))
  else command_report.

Definition write_exe (self : t) : M unit :=
  if rank self =? 0 then
    open_w (tmp_exe self);;
    write (tmp_exe self) ("#!/bin/bash" +:+ String "010" "");;
    write (tmp_exe self) (command self +:+ String "010" "");;
    write (tmp_exe self) (command_report self +:+ String "010" "");;
    print ("Indexing executable written to " +:+ tmp_exe self)
  else mret tt.

(** ** report *)

Definition nl : string := String "010" "".

(** "retrieve number of indexed patterns": the lines grep prints. *)
Definition count_indexed (self : t) : M Z :=
  output ← grep "Cell parameters" (stream self);
  mret (Z.of_nat (length (removelast (split "010" output)))).

(** [int(output.split(":")[1].split("\n")[0])] *)
Definition parse_total (output : string) : result Z :=
  after_colon ← index (split ":" output) 1;
  first_line ← index (split "010" after_colon) 0;
  int first_line.

(** "retrieve number of total patterns" *)
Definition count_total (self : t) : M Z :=
  output ← grep "Number of hits found" (peakfinding_summary self);
  print (peakfinding_summary self);;
  lift (parse_total output).

(** "write summary file": the rate is computed inside the second
    [f.write], after the first line went out. *)
Definition write_summary (self : t) (n_indexed n_total : Z) : M unit :=
  open_w (indexing_summary self);;
  write (indexing_summary self)
    ("Number of indexed events: " +:+ str_int n_indexed +:+ nl);;
  rate ← lift (true_div n_indexed n_total);
  write (indexing_summary self)
    ("Fractional indexing rate rate: " +:+ format_2f rate +:+ nl).

(** [item.split(":")[1].strip(" ").strip('\n')] *)
Definition pf_val (item : string) : result string :=
  v ← index (split ":" item) 1;
  mret (strip "010" (strip " " v)).

(** "post to elog". [update_url] is assigned from the environment here,
    whatever the caller passed. The two list comprehensions run before the
    [try]; building the payload and sending it run inside. *)
Definition post_to_elog (w : World) (self : t) (n_indexed n_total : Z) : M unit :=
  let update_url := environ w !! "JID_UPDATE_COUNTERS" in
  match update_url with
  | Some update_url =>
      all_lines ← read_lines (peakfinding_summary self);
      let lines := take 3 all_lines in
      pf_keys ← comprehension
                  (fun item => lift (index (split ":" item) 0)) lines;
      pf_vals ← comprehension (fun item => lift (pf_val item)) lines;
      try_except
        (k0 ← lift (index pf_keys 0); v0 ← lift (index pf_vals 0);
         k1 ← lift (index pf_keys 1); v1 ← lift (index pf_vals 1);
         k2 ← lift (index pf_keys 2); v2 ← lift (index pf_vals 2);
         rate ← lift (true_div n_indexed n_total);
         requests_post w update_url
           [ Entry k0 v0; Entry k1 v1; Entry k2 v2;
             Entry "Number of indexed events" (str_int n_indexed);
             Entry "Fractional indexing rate" (format_2f rate) ])
        (print "Could not communicate with the elog update url")
  | None => mret tt
  end.

(** [report(self, update_url=None)] *)
Definition report (w : World) (self : t) (update_url : option string) : M unit :=
  if rank self =? 0 then
    n_indexed ← count_indexed self;
    n_total ← count_total self;
    write_summary self n_indexed n_total;;
    post_to_elog w self n_indexed n_total
  else mret tt.

(** ** What a run of [report] reads from the files *)

(** The value of the local [n_indexed]. *)
Definition indexed_count (fs : gmap string string) (self : t) : Z :=
  Z.of_nat (length (removelast
    (split "010" (grep_stdout fs "Cell parameters" (stream self))))).

(** The value of the local [n_total], or the exception its parse raises. *)
Definition hits_total (fs : gmap string string) (self : t) : result Z :=
  parse_total (grep_stdout fs "Number of hits found" (peakfinding_summary self)).

(** [f"{(a/b):.2f}"] *)
Definition rate_text (a b : Z) : result string :=
  rate ← true_div a b; mret (format_2f rate).

(** The two lines of the indexing summary. *)
Definition summary_line1 (n_indexed : Z) : string :=
  "Number of indexed events: " +:+ str_int n_indexed.

Definition summary_line2 (rate : float) : string :=
  "Fractional indexing rate rate: " +:+ format_2f rate.

End Indexer.

(* ===================================================================== *)
(** * Reading the specification *)
(* ===================================================================== *)

Module Spec.
Import Py Os Indexer.

(** "taskdir/rel": the file [rel] inside directory [dir]. One ["/"]
    separates the two, unless [dir] is empty (the path is then relative) or
    already ends with one. *)
Definition under (dir rel : string) : string :=
  if (String.length dir =? 0)%nat then rel
  else if endswith dir "/" then dir +:+ rel
  else dir +:+ "/" +:+ rel.

(** [r{run:04}/r{run:04}{tag_cxi}.lst] and [r{run:04}_{tag}.stream] *)
Definition lst_template (run : Z) (tag_cxi : string) : string :=
  "r" +:+ format_04 run +:+ "/r" +:+ format_04 run +:+ tag_cxi +:+ ".lst".

Definition stream_template (run : Z) (tag : string) : string :=
  "r" +:+ format_04 run +:+ "_" +:+ tag +:+ ".stream".

(** What the constructor stores for a given [tag_cxi] argument. *)
Definition normalised (tag_cxi : option string) : string :=
  match tag_cxi with
  | None => EmptyString
  | Some EmptyString => EmptyString
  | Some (String c r) => if Ascii.eqb c "_" then String c r else String "_" (String c r)
  end.

(** [needle] occurs in [s]: the logical reading of [needle in s]. *)
Definition occurs (needle s : string) : Prop :=
  exists a b, s = a +:+ needle +:+ b.

(** The character [c] is somewhere in [s]. *)
Fixpoint has_char (c : ascii) (s : string) : bool :=
  match s with
  | EmptyString => false
  | String a r => Ascii.eqb a c || has_char c r
  end.

(** The attribute values that [write_exe] copies into the command as they
    are, in the order of their appearance. *)
Definition interpolated (self : Indexer.t) : list string :=
  [ lst self; stream self; nproc self; str_opt (geom self); rad self;
    methods self; tolerance self ]
  ++ match cell self with Some c => [c] | None => [] end.

(** No line break inside [s]. *)
Fixpoint one_line (s : string) : bool :=
  match s with
  | EmptyString => true
  | String c r => negb (Ascii.eqb c "010") && one_line r
  end.

(** A list comprehension over an expression, without the state. *)
Fixpoint traverse {A B : Type} (f : A -> result B) (l : list A) : result (list B) :=
  match l with
  | [] => inr []
  | x :: r =>
      match f x with
      | inl e => inl e
      | inr y => match traverse f r with
                 | inl e => inl e
                 | inr ys => inr (y :: ys)
                 end
      end
  end.

(** The line printed when the elog cannot be reached. *)
Definition elog_failure : string := "Could not communicate with the elog update url".

(** The array posted to the elog: three pairs from the peakfinding summary,
    then the two indexing figures. *)
Definition elog_payload (k0 v0 k1 v1 k2 v2 : string) (n_indexed : Z) (rate : float)
  : list entry :=
  [ Entry k0 v0; Entry k1 v1; Entry k2 v2;
    Entry "Number of indexed events" (str_int n_indexed);
    Entry "Fractional indexing rate" (format_2f rate) ].

(** An object the constructor returned. *)
Definition constructed (w : World) (self : Indexer.t) : Prop :=
  exists exp run det_type tag taskdir geom cell int_rad methods tolerance
         tag_cxi no_revalidate multi profile,
    __init__ w exp run det_type tag taskdir geom cell int_rad methods
      tolerance tag_cxi no_revalidate multi profile = inr self.

End Spec.

(* ===================================================================== *)
(** * Concrete runs *)
(* ===================================================================== *)

Module Examples.
Import Py Os Indexer.

(** A single-core session with the elog URL set and a reachable elog. *)
Definition world : World := {|
  environ := list_to_map [ ("WHICHPYTHON", "/usr/bin/python"); ("NCORES", "1");
                           ("JID_UPDATE_COUNTERS", "http://elog/counters") ];
  mpi_rank := 0;
  script_file := "/btx/processing/indexer.py";
  post_raises := fun _ _ => None |}.

(** The same session with the elog down. *)
Definition world_elog_down : World := {|
  environ := environ world;
  mpi_rank := 0;
  script_file := script_file world;
  post_raises := fun _ _ => Some (OtherError "ConnectionError") |}.

(** Four cores; this process is rank 1. *)
Definition world_rank1 : World := {|
  environ := list_to_map [ ("WHICHPYTHON", "/usr/bin/python"); ("NCORES", "4") ];
  mpi_rank := 1;
  script_file := script_file world;
  post_raises := fun _ _ => None |}.

(** [Indexer(exp, 7, det, "foo", "/d", geom)] in [world]. *)
Definition run7 : Indexer.t := {|
  exp := "mfxp19619"; run := 7; det_type := "epix10k2M";
  taskdir := "/d"; tag := "foo"; tag_cxi := Some EmptyString;
  geom := Some "/d/geom/r0007.geom"; cell := None; rad := "4,5,6";
  methods := "mosflm"; tolerance := "5,5,5,1.5";
  no_revalidate := true; multi := true; profile := true;
  lst := "/d/r0007/r0007.lst"; stream := "/d/r0007_foo.stream";
  tmp_exe := "/d/r0007/index_r0007.sh";
  peakfinding_summary := "/d/r0007/peakfinding.summary";
  indexing_summary := "/d/r0007/indexing_foo.summary";
  script_path := "/btx/processing/indexer.py";
  python_path := "/usr/bin/python"; nproc := "1"; rank := 0 |}.

(** The same call with [tag_cxi="bar"]. *)
Definition run7_bar : Indexer.t := {|
  exp := "mfxp19619"; run := 7; det_type := "epix10k2M";
  taskdir := "/d"; tag := "foo"; tag_cxi := Some "_bar";
  geom := Some "/d/geom/r0007.geom"; cell := None; rad := "4,5,6";
  methods := "mosflm"; tolerance := "5,5,5,1.5";
  no_revalidate := true; multi := true; profile := true;
  lst := "/d/r0007/r0007_bar.lst"; stream := "/d/r0007_foo.stream";
  tmp_exe := "/d/r0007/index_r0007.sh";
  peakfinding_summary := "/d/r0007/peakfinding_bar.summary";
  indexing_summary := "/d/r0007/indexing_foo.summary";
  script_path := "/btx/processing/indexer.py";
  python_path := "/usr/bin/python"; nproc := "1"; rank := 0 |}.

(** The first call again, in [world_rank1]. *)
Definition run7_rank1 : Indexer.t := {|
  exp := "mfxp19619"; run := 7; det_type := "epix10k2M";
  taskdir := "/d"; tag := "foo"; tag_cxi := Some EmptyString;
  geom := Some "/d/geom/r0007.geom"; cell := None; rad := "4,5,6";
  methods := "mosflm"; tolerance := "5,5,5,1.5";
  no_revalidate := true; multi := true; profile := true;
  lst := "/d/r0007/r0007.lst"; stream := "/d/r0007_foo.stream";
  tmp_exe := "/d/r0007/index_r0007.sh";
  peakfinding_summary := "/d/r0007/peakfinding.summary";
  indexing_summary := "/d/r0007/indexing_foo.summary";
  script_path := "/btx/processing/indexer.py";
  python_path := "/usr/bin/python"; nproc := "4"; rank := 1 |}.

(** Nothing written, printed or posted yet. *)
(** A call with [multi=False], no cell file, and a methods string that
    carries two options of its own. *)
Definition run7_injected : Indexer.t := {|
  exp := "mfxp19619"; run := 7; det_type := "epix10k2M";
  taskdir := "/d"; tag := "foo"; tag_cxi := Some EmptyString;
  geom := Some "/d/geom/r0007.geom"; cell := None; rad := "4,5,6";
  methods := "mosflm --multi --pdb=my.cell"; tolerance := "5,5,5,1.5";
  no_revalidate := true; multi := false; profile := true;
  lst := "/d/r0007/r0007.lst"; stream := "/d/r0007_foo.stream";
  tmp_exe := "/d/r0007/index_r0007.sh";
  peakfinding_summary := "/d/r0007/peakfinding.summary";
  indexing_summary := "/d/r0007/indexing_foo.summary";
  script_path := "/btx/processing/indexer.py";
  python_path := "/usr/bin/python"; nproc := "1"; rank := 0 |}.

(** The first call with a cell file. *)
Definition run7_cell : Indexer.t := {|
  exp := "mfxp19619"; run := 7; det_type := "epix10k2M";
  taskdir := "/d"; tag := "foo"; tag_cxi := Some EmptyString;
  geom := Some "/d/geom/r0007.geom"; cell := Some "/d/cell/lyso.cell";
  rad := "4,5,6"; methods := "mosflm"; tolerance := "5,5,5,1.5";
  no_revalidate := true; multi := true; profile := true;
  lst := "/d/r0007/r0007.lst"; stream := "/d/r0007_foo.stream";
  tmp_exe := "/d/r0007/index_r0007.sh";
  peakfinding_summary := "/d/r0007/peakfinding.summary";
  indexing_summary := "/d/r0007/indexing_foo.summary";
  script_path := "/btx/processing/indexer.py";
  python_path := "/usr/bin/python"; nproc := "1"; rank := 0 |}.

Definition fresh (fs : gmap string string) : State :=
  {| files := fs; console := []; posts := [] |}.

Definition empty_disk : State := fresh ∅.

(** A stream with [n] indexed patterns, and a peakfinding summary that
    reports [hits] hits. *)
Definition chunk : string :=
  "----- Begin chunk -----" +:+ nl
  +:+ "Cell parameters 7.90 7.90 3.80 nm, 90.00 90.00 90.00 deg" +:+ nl
  +:+ "----- End chunk -----" +:+ nl.

Fixpoint chunks (n : nat) : string :=
  match n with
  | O => EmptyString
  | S k => chunk +:+ chunks k
  end.

Definition peakfinding_text (hits : string) : string :=
  "Number of events processed: 200" +:+ nl
  +:+ "Number of hits found: " +:+ hits +:+ nl
  +:+ "Fractional hit rate: 0.50" +:+ nl.

Definition disk (n : nat) (hits : string) : State :=
  fresh (<["/d/r0007_foo.stream" := chunks n]>
           (<["/d/r0007/peakfinding.summary" := peakfinding_text hits]> ∅)).

End Examples.

(* ===================================================================== *)
(** * parse_input and the script's entry point *)
(* ===================================================================== *)

(** The namespace [parse_input] returns: one attribute per option. *)
Module Params.
Record t : Type := {
  exp : string;
  run : Z;
  det_type : string;
  tag : string;
  tag_cxi : option string;
  taskdir : string;
  report : bool;
  update_url : option string;
  geom : option string;
  cell : option string;
  int_rad : string;
  methods : string;
  tolerance : string;
  no_revalidate : bool;
  multi : bool;
  profile : bool;
}.
End Params.

(** The command line once argparse has matched the option names: for each
    option of [parse_input] the string given with it, and for each flag
    whether it is there. The four required options always have a value (a
    command line without one never gets past argparse). *)
Module Argv.
Record t : Type := {
  exp : string;
  run : string;
  det_type : string;
  tag : string;
  tag_cxi : option string;
  taskdir : string;
  report : bool;
  update_url : option string;
  geom : option string;
  cell : option string;
  int_rad : option string;
  methods : option string;
  tolerance : option string;
  no_revalidate : bool;
  multi : bool;
  profile : bool;
}.
End Argv.

Module Cli.
Import Py Os.

(** [parse_input]: [type=int] converts the run number (argparse turns a
    failed conversion into [SystemExit], after a usage message on stderr
    that is not part of the state here); an option left out takes its
    [default]; [--report] is [store_true]; [--no_revalidate], [--multi] and
    [--profile] are [store_false], so each is [True] unless it is given. *)
Definition parse_input (argv : Argv.t) : result Params.t :=
  match int (Argv.run argv) with
  | inl _ => inl (OtherError "SystemExit")
  | inr run =>
      inr {|
        Params.exp := Argv.exp argv;
        Params.run := run;
        Params.det_type := Argv.det_type argv;
        Params.tag := Argv.tag argv;
        Params.tag_cxi := Argv.tag_cxi argv;
        Params.taskdir := Argv.taskdir argv;
        Params.report := Argv.report argv;
        Params.update_url := Argv.update_url argv;
        Params.geom := Argv.geom argv;
        Params.cell := Argv.cell argv;
        Params.int_rad := default "4,5,6" (Argv.int_rad argv);
        Params.methods := default "xgandalf,mosflm,xds" (Argv.methods argv);
        Params.tolerance := default "5,5,5,1.5" (Argv.tolerance argv);
        Params.no_revalidate := negb (Argv.no_revalidate argv);
        Params.multi := negb (Argv.multi argv);
        Params.profile := negb (Argv.profile argv) |}
  end.

(** The object the [__main__] block builds from the namespace. *)
Definition indexer_obj (w : World) (params : Params.t) : result Indexer.t :=
  Indexer.__init__ w (Params.exp params) (Params.run params)
    (Params.det_type params) (Params.tag params) (Params.taskdir params)
    (Params.geom params) (Params.cell params) (Params.int_rad params)
    (Params.methods params) (Params.tolerance params) (Params.tag_cxi params)
    (Params.no_revalidate params) (Params.multi params) (Params.profile params).

(** The [if __name__ == '__main__':] block. *)
Definition main (w : World) (argv : Argv.t) : M unit :=
  params ← lift (parse_input argv);
  indexer_obj ← lift (indexer_obj w params);
  if negb (Params.report params) then Indexer.write_exe indexer_obj
  else Indexer.report w indexer_obj (Params.update_url params).

End Cli.

(* ===================================================================== *)
(** * dags/optimize_geometry.py *)
(* ===================================================================== *)

Module Dag.
Import Py.

(** [s.rfind(c)]: the index of the last [c], or -1. *)
Fixpoint rfind (c : ascii) (s : string) : Z :=
  match s with
  | EmptyString => -1
  | String a r =>
      let i := rfind c r in
      if 0 <=? i then i + 1
      else if Ascii.eqb a c then 0 else -1
  end.

(** The slices [s[i:]] and [s[:i]] for [0 <= i]. *)
Fixpoint drop (i : nat) (s : string) : string :=
  match i, s with
  | O, _ => s
  | S k, String _ r => drop k r
  | S _, EmptyString => EmptyString
  end.

Fixpoint take (i : nat) (s : string) : string :=
  match i, s with
  | O, _ => EmptyString
  | S k, String a r => String a (take k r)
  | S _, EmptyString => EmptyString
  end.

(** [os.path.basename(p)] *)
Definition basename (p : string) : string :=
  let i := rfind "/" p + 1 in
  drop (Z.to_nat i) p.

(** The loop of [genericpath._splitext]: is one of the [steps] characters
    from [filenameIndex] on not a dot? *)
Fixpoint has_stem (p : string) (filenameIndex steps : nat) : bool :=
  match steps with
  | O => false
  | S k =>
      match String.get filenameIndex p with
      | Some a => if Ascii.eqb a "." then has_stem p (S filenameIndex) k else true
      | None => true
      end
  end.

(** [os.path.splitext(p)]: the extension starts at the last dot, unless
    that dot is before the last slash or only dots precede it in the file
    name. *)
Definition splitext (p : string) : string * string :=
  let sepIndex := rfind "/" p in
  let dotIndex := rfind "." p in
  if (sepIndex <? dotIndex)
     && has_stem p (Z.to_nat (sepIndex + 1)) (Z.to_nat (dotIndex - (sepIndex + 1)))
  then (take (Z.to_nat dotIndex) p, drop (Z.to_nat dotIndex) p)
  else (p, EmptyString).

(** [dag_name = os.path.splitext(os.path.basename(__file__))[0]] *)
Definition dag_name (file : string) : string := (splitext (basename file)).1.

(** The module's objects: the DAG, its two tasks in the order they are
    created, and the one dependency drawn by [run_analysis >> opt_geom]
    (upstream first). *)
Record task : Type := Task { task_id : string; run_at : string }.

Record dag : Type := {
  dag_id : string;
  start_date : Z * Z * Z;
  description : string;
  tasks : list task;
  edges : list (string * string);
}.

Definition optimize_geometry (file : string) : dag := {|
  dag_id := dag_name file;
  start_date := (2022, 4, 1);
  description := "BTX optimize geometry DAG";
  tasks := [ Task "run_analysis" "SRCF_FFB"; Task "opt_geom" "SRCF_FFB" ];
  edges := [ ("run_analysis", "opt_geom") ] |}.

End Dag.

(* ===================================================================== *)
(** * Vocabulary for the properties of the whole module *)
(* ===================================================================== *)

Module More.
Import Py Os Indexer.

(** Every character of [s] passes the test [P]. *)
Fixpoint all_chars (P : ascii -> bool) (s : string) : bool :=
  match s with
  | EmptyString => true
  | String c r => P c && all_chars P r
  end.

(** The characters [str] and the [04] format produce for an [int]. *)
Definition is_digit_or_minus (c : ascii) : bool :=
  match Ascii.is_nat c with
  | Some _ => true
  | None => Ascii.eqb c "-"
  end.

(** The five paths [_retrieve_paths] derives. *)
Definition paths (self : Indexer.t) : list string :=
  [ lst self; stream self; tmp_exe self; peakfinding_summary self;
    indexing_summary self ].

(** The attribute values [write_exe] copies into [command_report]. *)
Definition report_values (self : Indexer.t) : list string :=
  [ python_path self; script_path self; exp self; det_type self;
    taskdir self; tag self; str_opt (tag_cxi self) ].

(** What [write_exe] writes into [tmp_exe]. *)
Definition script_text (self : Indexer.t) : string :=
  "#!/bin/bash" +:+ nl +:+ command self +:+ nl +:+ command_report self +:+ nl.

(** How often [c] occurs in [s], and the line breaks in a list of values. *)
Fixpoint count_char (c : ascii) (s : string) : nat :=
  match s with
  | EmptyString => O
  | String a r => ((if Ascii.eqb a c then 1 else 0) + count_char c r)%nat
  end.

Definition line_breaks (values : list string) : nat :=
  foldr (fun s n => (count_char "010" s + n)%nat) O values.

(** The lines of a text that grep reports for [needle]. *)
Definition matching_lines (needle text : string) : list string :=
  List.filter (fun l => contains needle l) (file_lines text).

(** What [report] leaves in the indexing summary for given counts: both
    lines, or the first line alone when the division raises. *)
Definition summary_text (n_indexed n_total : Z) : string :=
  match true_div n_indexed n_total with
  | inr rate => summary_line1 n_indexed +:+ nl +:+ summary_line2 rate +:+ nl
  | inl _ => summary_line1 n_indexed +:+ nl
  end.

(** A world without any environment variable, and one with a core count
    that is not a number. *)
Definition world_no_env : World := {|
  environ := ∅; mpi_rank := 0;
  script_file := "/btx/processing/indexer.py";
  post_raises := fun _ _ => None |}.

Definition world_bad_ncores : World := {|
  environ := list_to_map [ ("WHICHPYTHON", "/usr/bin/python"); ("NCORES", "many") ];
  mpi_rank := 0;
  script_file := "/btx/processing/indexer.py";
  post_raises := fun _ _ => None |}.

(** One core, but MPI reports rank 3; and a session that redirects the
    script with [TMP_EXE]. *)
Definition world_one_core_rank3 : World := {|
  environ := list_to_map [ ("WHICHPYTHON", "/usr/bin/python"); ("NCORES", "1") ];
  mpi_rank := 3;
  script_file := "/btx/processing/indexer.py";
  post_raises := fun _ _ => None |}.

Definition world_tmp_exe : World := {|
  environ := list_to_map [ ("WHICHPYTHON", "/usr/bin/python"); ("NCORES", "1");
                           ("TMP_EXE", "/scratch/job.sh") ];
  mpi_rank := 0;
  script_file := "/btx/processing/indexer.py";
  post_raises := fun _ _ => None |}.

(** A session without the elog URL. *)
Definition world_no_url : World := {|
  environ := list_to_map [ ("WHICHPYTHON", "/usr/bin/python"); ("NCORES", "1") ];
  mpi_rank := 0;
  script_file := "/btx/processing/indexer.py";
  post_raises := fun _ _ => None |}.

(** [indexer.py -e mfxp19619 -r 7 -d epix10k2M --tag foo --taskdir /d
    --geom /d/geom/r0007.geom --methods mosflm]; the same call with
    [--multi] and without [--methods]; the reporting call; and a call with
    a run number that is not one. *)
Definition argv_index : Argv.t := {|
  Argv.exp := "mfxp19619"; Argv.run := "7"; Argv.det_type := "epix10k2M";
  Argv.tag := "foo"; Argv.tag_cxi := None; Argv.taskdir := "/d";
  Argv.report := false; Argv.update_url := None;
  Argv.geom := Some "/d/geom/r0007.geom"; Argv.cell := None;
  Argv.int_rad := None; Argv.methods := Some "mosflm"; Argv.tolerance := None;
  Argv.no_revalidate := false; Argv.multi := false; Argv.profile := false |}.

Definition argv_index_multi : Argv.t := {|
  Argv.exp := "mfxp19619"; Argv.run := "7"; Argv.det_type := "epix10k2M";
  Argv.tag := "foo"; Argv.tag_cxi := None; Argv.taskdir := "/d";
  Argv.report := false; Argv.update_url := None;
  Argv.geom := Some "/d/geom/r0007.geom"; Argv.cell := None;
  Argv.int_rad := None; Argv.methods := None; Argv.tolerance := None;
  Argv.no_revalidate := false; Argv.multi := true; Argv.profile := false |}.

Definition argv_report : Argv.t := {|
  Argv.exp := "mfxp19619"; Argv.run := "7"; Argv.det_type := "epix10k2M";
  Argv.tag := "foo"; Argv.tag_cxi := None; Argv.taskdir := "/d";
  Argv.report := true; Argv.update_url := None;
  Argv.geom := None; Argv.cell := None;
  Argv.int_rad := None; Argv.methods := None; Argv.tolerance := None;
  Argv.no_revalidate := false; Argv.multi := false; Argv.profile := false |}.

Definition argv_bad_run : Argv.t := {|
  Argv.exp := "mfxp19619"; Argv.run := "seven"; Argv.det_type := "epix10k2M";
  Argv.tag := "foo"; Argv.tag_cxi := None; Argv.taskdir := "/d";
  Argv.report := false; Argv.update_url := None;
  Argv.geom := None; Argv.cell := None;
  Argv.int_rad := None; Argv.methods := None; Argv.tolerance := None;
  Argv.no_revalidate := false; Argv.multi := false; Argv.profile := false |}.

End More.

(* ===================================================================== *)
(** * Numbers *)
(* ===================================================================== *)

Section Numbers.
Import Py Indexer.

(** The rate of a few small counts, as Python prints it. The quotient is
    rounded to binary64 before it is rounded to two decimals: 1/200 is a
    little above 0.005 as a double and prints as 0.01, 15/1000 is a little
    below 0.015 and prints as 0.01, and the exact tie 1/8 goes to even. *)

Example rate_50_100 : rate_text 50 100 = inr "0.50".
Proof. vm_compute. reflexivity. Qed.

Example rate_2_3 : rate_text 2 3 = inr "0.67".
Proof. vm_compute. reflexivity. Qed.

Example rate_1_200 : rate_text 1 200 = inr "0.01".
Proof. vm_compute. reflexivity. Qed.

Example rate_15_1000 : rate_text 15 1000 = inr "0.01".
Proof. vm_compute. reflexivity. Qed.

Example rate_1_8 : rate_text 1 8 = inr "0.12".
Proof. vm_compute. reflexivity. Qed.

Example rate_3_8 : rate_text 3 8 = inr "0.38".
Proof. vm_compute. reflexivity. Qed.

Example rate_0_neg : rate_text 0 (-5) = inr "-0.00".
Proof. vm_compute. reflexivity. Qed.

Example rate_by_zero : rate_text 50 0 = inl ZeroDivisionError.
Proof. reflexivity. Qed.

Example rate_overflow : rate_text (10 ^ 400) 1 = inl OverflowError.
Proof. vm_compute. reflexivity. Qed.

Example one_tenth : true_div 1 10 = inr (S754_finite false 7205759403792794 (-56)).
Proof. vm_compute. reflexivity. Qed.

Lemma true_div_zero (a : Z) : true_div a 0 = inl ZeroDivisionError.
Proof. reflexivity. Qed.

(** [round_hundredths] is exact for an integral value and otherwise within
    half a hundredth of [m * 2^e]. *)
Lemma round_hundredths_integral (m : positive) (e : Z) :
  0 <= e -> round_hundredths m e = Z.pos m * 2 ^ e * 100.
Proof.
  intros He. unfold round_hundredths.
  destruct (Z.leb_spec 0 e); [reflexivity | lia].
Qed.

Lemma round_hundredths_nearest (m : positive) (e : Z) :
  e < 0 ->
  2 * Z.abs (Z.pos m * 100 - round_hundredths m e * 2 ^ (- e)) <= 2 ^ (- e).
Proof.
  intros He. unfold round_hundredths.
  destruct (Z.leb_spec 0 e); [lia|].
  assert (Hden : 0 < 2 ^ (- e)) by (apply Z.pow_pos_nonneg; lia).
  set (den := 2 ^ (- e)) in *.
  pose proof (Z.div_mod (Z.pos m * 100) den ltac:(lia)) as Hdm.
  pose proof (Z.mod_pos_bound (Z.pos m * 100) den Hden) as Hr.
  set (q := Z.pos m * 100 / den) in *.
  set (r := (Z.pos m * 100) mod den) in *.
  destruct (Z.compare_spec (2 * r) den); [destruct (Z.even q)| |]; nia.
Qed.

End Numbers.

(* ===================================================================== *)
(** * Strings *)
(* ===================================================================== *)

Section StringFacts.
Import Py Spec.

Lemma append_nil_l (s : string) : EmptyString +:+ s = s.
Proof. reflexivity. Qed.

Lemma append_cons (c : ascii) (s t : string) :
  String c s +:+ t = String c (s +:+ t).
Proof. reflexivity. Qed.

Lemma append_nil_r (s : string) : s +:+ EmptyString = s.
Proof. induction s as [|c s IH]; [reflexivity|]. rewrite append_cons, IH. reflexivity. Qed.

Lemma append_assoc (a b c : string) : (a +:+ b) +:+ c = a +:+ (b +:+ c).
Proof.
  induction a as [|x a IH]; [reflexivity|].
  rewrite !append_cons, IH. reflexivity.
Qed.

Lemma length_append (a b : string) :
  String.length (a +:+ b) = (String.length a + String.length b)%nat.
Proof.
  induction a as [|x a IH]; [reflexivity|].
  rewrite append_cons. simpl. rewrite IH. reflexivity.
Qed.

Lemma length_zero (s : string) : (String.length s =? 0)%nat = true -> s = EmptyString.
Proof. destruct s; [reflexivity | discriminate]. Qed.

(** *** Substrings *)

Lemma startswith_str_app (p a b : string) :
  startswith_str p a = true -> startswith_str p (a +:+ b) = true.
Proof.
  revert a. induction p as [|x p IH]; intros a; [reflexivity|].
  destruct a as [|y a]; [discriminate|].
  rewrite append_cons. cbn [startswith_str].
  intros [Hxy Hp]%andb_prop. rewrite Hxy, (IH _ Hp). reflexivity.
Qed.

Lemma startswith_str_sep (p a b : string) (c : ascii) :
  has_char c p = false ->
  startswith_str p (a +:+ String c b) = startswith_str p a.
Proof.
  revert a. induction p as [|x p IH]; intros a Hc; [reflexivity|].
  cbn [has_char] in Hc. apply orb_false_elim in Hc as [Hx Hp].
  destruct a as [|y a].
  - rewrite append_nil_l. cbn [startswith_str]. rewrite Hx. reflexivity.
  - rewrite append_cons. cbn [startswith_str]. rewrite (IH _ Hp). reflexivity.
Qed.

Lemma contains_cons (p : string) (c : ascii) (s : string) :
  contains p (String c s) = startswith_str p (String c s) || contains p s.
Proof. reflexivity. Qed.

Lemma contains_app_r (p a b : string) :
  contains p b = true -> contains p (a +:+ b) = true.
Proof.
  intros Hb. induction a as [|c a IH]; [exact Hb|].
  rewrite append_cons, contains_cons, IH. apply orb_true_r.
Qed.

Lemma contains_app_l (p a b : string) :
  contains p a = true -> contains p (a +:+ b) = true.
Proof.
  induction a as [|c a IH].
  - destruct p; [|discriminate]. intros _. destruct b; reflexivity.
  - rewrite append_cons, !contains_cons.
    intros [Hs|Ha]%orb_prop.
    + rewrite <- append_cons, (startswith_str_app _ _ _ Hs). reflexivity.
    + rewrite (IH Ha). apply orb_true_r.
Qed.

(** A needle without the separator [c] cannot straddle it. *)
Lemma contains_sep (p a b : string) (c : ascii) :
  has_char c p = false ->
  contains p (a +:+ String c b) = contains p a || contains p b.
Proof.
  intros Hc. induction a as [|d a IH].
  - rewrite append_nil_l, contains_cons.
    rewrite <- (append_nil_l (String c b)), (startswith_str_sep _ _ _ _ Hc).
    destruct p; reflexivity.
  - rewrite append_cons, !contains_cons, IH.
    rewrite <- append_cons, (startswith_str_sep _ _ _ _ Hc).
    rewrite orb_assoc. reflexivity.
Qed.

Lemma one_line_append (a b : string) :
  one_line (a +:+ b) = one_line a && one_line b.
Proof.
  induction a as [|c a IH]; [reflexivity|].
  rewrite append_cons. cbn [one_line]. rewrite IH, andb_assoc. reflexivity.
Qed.

(** A text that starts with a full line: [readlines] peels it off. *)
Lemma readlines_line (a rest : string) :
  one_line a = true ->
  readlines (a +:+ String "010" rest) = (a +:+ String "010" EmptyString) :: readlines rest.
Proof.
  induction a as [|c a IH]; intros Ha.
  - reflexivity.
  - cbn [one_line] in Ha. apply andb_prop in Ha as [Hc Ha].
    rewrite !append_cons. cbn [readlines].
    destruct (Ascii.eqb c "010"); [discriminate|].
    rewrite (IH Ha). reflexivity.
Qed.

Lemma readlines_first (a rest : string) :
  one_line a = true ->
  readlines (a +:+ Indexer.nl +:+ rest) = (a +:+ Indexer.nl) :: readlines rest.
Proof.
  intros Ha. unfold Indexer.nl.
  change (String "010" EmptyString +:+ rest) with (String "010" rest).
  apply readlines_line, Ha.
Qed.

Lemma readlines_last (a : string) :
  one_line a = true -> readlines (a +:+ Indexer.nl) = [a +:+ Indexer.nl].
Proof. intros Ha. unfold Indexer.nl. apply (readlines_line a EmptyString Ha). Qed.

Lemma one_line_pretty_N_char (d : N) : negb (Ascii.eqb (pretty_N_char d) "010") = true.
Proof. unfold pretty_N_char. repeat case_match; reflexivity. Qed.

Lemma one_line_pretty_N_go (x : N) : forall s, one_line s = true -> one_line (pretty_N_go x s) = true.
Proof.
  induction x as [x IH] using (well_founded_induction N.lt_wf_0). intros s Hs.
  destruct (N.eq_dec x 0%N) as [->|Hx].
  - rewrite pretty_N_go_0. exact Hs.
  - rewrite pretty_N_go_step by lia. apply IH.
    + apply N.div_lt; lia.
    + cbn [one_line]. rewrite one_line_pretty_N_char, Hs. reflexivity.
Qed.

Lemma one_line_pretty_N (x : N) : one_line (pretty x) = true.
Proof.
  unfold pretty, pretty_N. case_decide; [reflexivity|].
  apply one_line_pretty_N_go. reflexivity.
Qed.

Lemma one_line_pretty_Z (z : Z) : one_line (pretty z) = true.
Proof.
  unfold pretty, pretty_Z. destruct z as [|p|p].
  - reflexivity.
  - apply one_line_pretty_N.
  - rewrite one_line_append. cbn [one_line Ascii.eqb negb andb].
    apply (one_line_pretty_N (N.pos p)).
Qed.

Lemma one_line_format_2f (x : float) : one_line (format_2f x) = true.
Proof.
  unfold format_2f, two_digits. destruct x as [[]|[]| |[] m e];
    rewrite ?one_line_append, ?one_line_pretty_Z; reflexivity.
Qed.

End StringFacts.

(* ===================================================================== *)
(** * The constructor *)
(* ===================================================================== *)

Section Constructor.
Import Py Os Indexer Spec.

(** The constructor returns exactly when the environment has
    [WHICHPYTHON] and a parseable [NCORES], and then every attribute is
    known. *)
Lemma init_inv w exp0 run0 det tag0 dir geom0 cell0 rad0 meth tol tc nr mu pr self :
  __init__ w exp0 run0 det tag0 dir geom0 cell0 rad0 meth tol tc nr mu pr = inr self ->
  exists py np n,
    environ w !! "WHICHPYTHON" = Some py /\
    environ w !! "NCORES" = Some np /\
    int np = inr n /\
    exp self = exp0 /\ run self = run0 /\ det_type self = det /\
    taskdir self = dir /\ tag self = tag0 /\
    tag_cxi self = Some (normalised tc) /\
    geom self = geom0 /\ cell self = cell0 /\ rad self = rad0 /\
    methods self = meth /\ tolerance self = tol /\
    no_revalidate self = nr /\ multi self = mu /\ profile self = pr /\
    lst self = os_path_join dir
                 (rdir self +:+ "/" +:+ rdir self +:+ normalised tc +:+ ".lst") /\
    stream self = os_path_join dir (rdir self +:+ "_" +:+ tag0 +:+ ".stream") /\
    peakfinding_summary self =
      os_path_join dir (rdir self +:+ "/peakfinding" +:+ normalised tc +:+ ".summary") /\
    indexing_summary self =
      os_path_join dir (rdir self +:+ "/indexing_" +:+ tag0 +:+ ".summary") /\
    python_path self = py /\ script_path self = script_file w /\
    nproc self = np /\
    rank self = (if 1 <? n then mpi_rank w else 0).
Proof.
  unfold __init__, _retrieve_paths, _parallel_logic, environ_item.
  cbn [exp run det_type taskdir tag tag_cxi geom cell rad methods tolerance
       no_revalidate multi profile lst stream tmp_exe peakfinding_summary
       indexing_summary script_path python_path nproc rank].
  destruct (environ w !! "WHICHPYTHON") as [py|] eqn:Hpy; [|discriminate].
  destruct (environ w !! "NCORES") as [np|] eqn:Hnp; [|discriminate].
  destruct (int np) as [e|n] eqn:Hn; [discriminate|].
  intros [= <-]. exists py, np, n.
  assert (Hnorm : match tc with
                  | Some s => if negb (String.eqb s EmptyString) && negb (startswith s "_")
                              then Some ("_" +:+ s) else Some s
                  | None => Some EmptyString
                  end = Some (normalised tc)).
  { destruct tc as [[|c r]|]; try reflexivity.
    unfold normalised, startswith. cbn [String.eqb negb andb].
    destruct (Ascii.eqb c "_"); reflexivity. }
  unfold rdir.
  cbn [exp run det_type taskdir tag tag_cxi geom cell rad methods tolerance
       no_revalidate multi profile lst stream tmp_exe peakfinding_summary
       indexing_summary script_path python_path nproc rank].
  rewrite !Hnorm. cbn [str_opt].
  repeat split; reflexivity || assumption.
Qed.

(** The constructor does return on such an environment. *)
Lemma init_returns w exp0 run0 det tag0 dir geom0 cell0 rad0 meth tol tc nr mu pr py np n :
  environ w !! "WHICHPYTHON" = Some py ->
  environ w !! "NCORES" = Some np ->
  int np = inr n ->
  exists self,
    __init__ w exp0 run0 det tag0 dir geom0 cell0 rad0 meth tol tc nr mu pr = inr self.
Proof.
  intros Hpy Hnp Hn.
  unfold __init__, _retrieve_paths, _parallel_logic, environ_item.
  cbn [exp run det_type taskdir tag tag_cxi geom cell rad methods tolerance
       no_revalidate multi profile lst stream tmp_exe peakfinding_summary
       indexing_summary script_path python_path nproc rank].
  rewrite Hpy, Hnp, Hn. eexists. reflexivity.
Qed.

(** [os.path.join] with a second part that does not start with a slash. *)
Lemma os_path_join_relative (a : string) (c : ascii) (b : string) :
  c <> "/"%char -> os_path_join a (String c b) = under a (String c b).
Proof.
  intros Hc. unfold os_path_join, under, startswith.
  destruct (Ascii.eqb_spec c "/") as [?|_]; [contradiction|].
  destruct (String.length a =? 0)%nat eqn:Hlen.
  - apply length_zero in Hlen. subst a. reflexivity.
  - reflexivity.
Qed.

Lemma append_inj_l (a b c : string) : a +:+ b = a +:+ c -> b = c.
Proof.
  induction a as [|x a IH]; [trivial|].
  rewrite !append_cons. intros [= H]. exact (IH H).
Qed.

Lemma under_inj (dir a b : string) : under dir a = under dir b -> a = b.
Proof.
  unfold under. destruct (String.length dir =? 0)%nat; [trivial|].
  destruct (endswith dir "/"); intros H.
  - exact (append_inj_l _ _ _ H).
  - apply append_inj_l in H. rewrite !append_cons, !append_nil_l in H.
    injection H as H. exact H.
Qed.

(** The summary that report writes is never the one it reads. *)
Lemma constructed_paths_distinct (w : World) (self : Indexer.t) :
  constructed w self -> indexing_summary self <> peakfinding_summary self.
Proof.
  intros (exp0 & run0 & det & tag0 & dir & geom0 & cell0 & rad0 & meth & tol & tc
          & nr & mu & pr & Hinit).
  destruct (init_inv _ _ _ _ _ _ _ _ _ _ _ _ _ _ _ _ Hinit)
    as (py & np & n & _ & _ & _ & _ & _ & _ & _ & _ & _ & _ & _ & _ & _ & _
        & _ & _ & _ & _ & _ & Hpeak & Hidx & _).
  rewrite Hpeak, Hidx. unfold rdir.
  rewrite !append_assoc, !append_cons, !append_nil_l.
  rewrite !os_path_join_relative by discriminate.
  intros H. apply under_inj in H. injection H as H.
  apply append_inj_l in H. discriminate H.
Qed.

End Constructor.

(* ===================================================================== *)
(** * Paths and tag normalisation *)
(* ===================================================================== *)

Section Paths.
Import Py Os Indexer Spec Examples.

Example run7_is_constructed :
  new world "mfxp19619" 7 "epix10k2M" "foo" "/d" (Some "/d/geom/r0007.geom")
  = inr run7.
Proof. vm_compute. reflexivity. Qed.

(** C1. An Indexer built with run=7, tag="foo", taskdir="/d" and tag_cxi
    left as None has lst = "/d/r0007/r0007.lst" and
    stream = "/d/r0007_foo.stream"; for every run number, tag and taskdir
    the two paths are the templates r{run:04}/r{run:04}{tag_cxi}.lst and
    r{run:04}_{tag}.stream placed under taskdir, which for a taskdir that is
    not empty and has no trailing slash is taskdir, "/" and the template. *)
Theorem C1_path_templates
    w exp0 run0 det tag0 dir geom0 cell0 rad0 meth tol tc nr mu pr self :
  __init__ w exp0 run0 det tag0 dir geom0 cell0 rad0 meth tol tc nr mu pr = inr self ->
  lst self = under dir (lst_template run0 (normalised tc)) /\
  stream self = under dir (stream_template run0 tag0) /\
  (dir <> EmptyString -> endswith dir "/" = false ->
   lst self = dir +:+ "/" +:+ lst_template run0 (normalised tc) /\
   stream self = dir +:+ "/" +:+ stream_template run0 tag0) /\
  (run0 = 7 -> tag0 = "foo" -> dir = "/d" -> tc = None ->
   lst self = "/d/r0007/r0007.lst" /\ stream self = "/d/r0007_foo.stream").
Proof.
  intros Hinit.
  destruct (init_inv _ _ _ _ _ _ _ _ _ _ _ _ _ _ _ _ Hinit)
    as (py & np & n & _ & _ & _ & _ & Hrun & _ & _ & _ & _ & _ & _ & _ & _ & _
        & _ & _ & _ & Hlst & Hstream & _).
  unfold rdir in Hlst, Hstream. rewrite Hrun in Hlst, Hstream.
  assert (Hl : lst self = under dir (lst_template run0 (normalised tc))).
  { rewrite Hlst. unfold lst_template.
    rewrite append_assoc, append_cons.
    apply os_path_join_relative. discriminate. }
  assert (Hs : stream self = under dir (stream_template run0 tag0)).
  { rewrite Hstream. unfold stream_template.
    rewrite append_assoc, append_cons.
    apply os_path_join_relative. discriminate. }
  split; [exact Hl|]. split; [exact Hs|]. split.
  - intros Hne Hslash. rewrite Hl, Hs. unfold under. rewrite Hslash.
    destruct dir; [contradiction|]. split; reflexivity.
  - intros -> -> -> ->. rewrite Hl, Hs. split; vm_compute; reflexivity.
Qed.

(** The separator at the two edges: a trailing slash is not doubled, and
    an empty taskdir gives a relative path. *)
Example lst_trailing_slash :
  match new world "mfxp19619" 7 "epix10k2M" "foo" "/d/" None with
  | inr self => lst self
  | inl _ => EmptyString
  end = "/d/r0007/r0007.lst".
Proof. vm_compute. reflexivity. Qed.

Example lst_empty_taskdir :
  match new world "mfxp19619" 7 "epix10k2M" "foo" EmptyString None with
  | inr self => lst self
  | inl _ => EmptyString
  end = "r0007/r0007.lst".
Proof. vm_compute. reflexivity. Qed.

Lemma C1_path_templates_witness :
  lst run7 = "/d/r0007/r0007.lst" /\ stream run7 = "/d/r0007_foo.stream".
Proof.
  exact (proj2 (proj2 (proj2
           (C1_path_templates world "mfxp19619" 7 "epix10k2M" "foo" "/d"
              (Some "/d/geom/r0007.geom") None "4,5,6" "mosflm"
              "5,5,5,1.5" None true true true run7 run7_is_constructed)))
           eq_refl eq_refl eq_refl eq_refl).
Defined.

End Paths.

Section TagCxi.
Import Py Os Indexer Spec Examples.

Example run7_bar_is_constructed :
  __init__ world "mfxp19619" 7 "epix10k2M" "foo" "/d" (Some "/d/geom/r0007.geom")
    None "4,5,6" "mosflm" "5,5,5,1.5" (Some "bar") true true true
  = inr run7_bar.
Proof. vm_compute. reflexivity. Qed.

(** A value that already starts with an underscore is stored as it is. *)
Lemma tag_cxi_underscore_kept
    w exp0 run0 det tag0 dir geom0 cell0 rad0 meth tol r nr mu pr self :
  __init__ w exp0 run0 det tag0 dir geom0 cell0 rad0 meth tol
    (Some (String "_" r)) nr mu pr = inr self ->
  tag_cxi self = Some (String "_" r).
Proof.
  intros Hinit.
  destruct (init_inv _ _ _ _ _ _ _ _ _ _ _ _ _ _ _ _ Hinit)
    as (_ & _ & _ & _ & _ & _ & _ & _ & _ & _ & _ & Htc & _).
  exact Htc.
Qed.

(** C2. The constructor stores tag_cxi="bar" as "_bar": any non-empty value
    that does not start with "_" gets one prepended; the empty string and
    None are both stored as the empty string. *)
Theorem C2_tag_cxi_normalised
    w exp0 run0 det tag0 dir geom0 cell0 rad0 meth tol tc nr mu pr self :
  __init__ w exp0 run0 det tag0 dir geom0 cell0 rad0 meth tol tc nr mu pr = inr self ->
  (tc = Some "bar" -> tag_cxi self = Some "_bar") /\
  (forall c r, tc = Some (String c r) -> c <> "_"%char ->
               tag_cxi self = Some ("_" +:+ String c r)) /\
  (tc = Some EmptyString \/ tc = None -> tag_cxi self = Some EmptyString).
Proof.
  intros Hinit.
  destruct (init_inv _ _ _ _ _ _ _ _ _ _ _ _ _ _ _ _ Hinit)
    as (_ & _ & _ & _ & _ & _ & _ & _ & _ & _ & _ & Htc & _).
  rewrite Htc. repeat split.
  - intros ->. reflexivity.
  - intros c r -> Hc. unfold normalised.
    destruct (Ascii.eqb_spec c "_") as [?|_]; [contradiction | reflexivity].
  - intros [-> | ->]; reflexivity.
Qed.

Lemma C2_tag_cxi_normalised_witness : tag_cxi run7_bar = Some "_bar".
Proof.
  exact (proj1 (C2_tag_cxi_normalised world "mfxp19619" 7 "epix10k2M" "foo" "/d"
                  (Some "/d/geom/r0007.geom") None "4,5,6" "mosflm" "5,5,5,1.5"
                  (Some "bar") true true true run7_bar run7_bar_is_constructed)
           eq_refl).
Defined.

End TagCxi.


(* ===================================================================== *)
(** * Running report, block by block *)
(* ===================================================================== *)

Section ReportBlocks.
Import Py Os Indexer Spec.

Lemma run_bind {A B : Type} (c : M A) (k : A -> M B) (st : State) :
  (x ← c; k x) st =
  match c st with
  | (st', inr x) => k x st'
  | (st', inl e) => (st', inl e)
  end.
Proof. reflexivity. Qed.

Lemma run_count_indexed (self : Indexer.t) (st : State) :
  count_indexed self st = (st, inr (indexed_count (files st) self)).
Proof. reflexivity. Qed.

Lemma run_count_total (self : Indexer.t) (st : State) :
  count_total self st =
  (printed (peakfinding_summary self) st, hits_total (files st) self).
Proof. reflexivity. Qed.

(** Opening for writing, then writing: the file holds what was written. *)
Lemma run_write_summary (self : Indexer.t) (n_indexed n_total : Z) (st : State) :
  write_summary self n_indexed n_total st =
  match true_div n_indexed n_total with
  | inr rate =>
      (stored (<[indexing_summary self :=
                   summary_line1 n_indexed +:+ nl +:+ summary_line2 rate +:+ nl]>
                 (files st)) st, inr tt)
  | inl e =>
      (stored (<[indexing_summary self := summary_line1 n_indexed +:+ nl]> (files st)) st,
       inl e)
  end.
Proof.
  unfold write_summary. rewrite !run_bind.
  unfold open_w, write, lift, stored. rewrite !run_bind.
  cbn [files console posts]. rewrite lookup_insert_eq, insert_insert_eq.
  cbn [default from_option id]. rewrite append_nil_l.
  destruct (true_div n_indexed n_total) as [e|rate].
  - reflexivity.
  - cbn [files console posts]. rewrite lookup_insert_eq, insert_insert_eq.
    cbn [default from_option id]. unfold summary_line1, summary_line2.
    rewrite !append_assoc. reflexivity.
Qed.

(** A comprehension over expressions leaves the state alone. *)
Lemma run_comprehension {A B : Type} (f : A -> result B) (l : list A) (st : State) :
  comprehension (fun item => lift (f item)) l st = (st, traverse f l).
Proof.
  induction l as [|x r IH]; [reflexivity|].
  cbn [comprehension traverse]. rewrite run_bind. unfold lift at 1.
  destruct (f x) as [e|y]; [reflexivity|].
  rewrite run_bind, IH. destruct (traverse f r); reflexivity.
Qed.

Lemma traverse_length {A B : Type} (f : A -> result B) (l : list A) (ys : list B) :
  traverse f l = inr ys -> length ys = length l.
Proof.
  revert ys. induction l as [|x r IH]; intros ys; cbn [traverse].
  - intros [= <-]. reflexivity.
  - destruct (f x); [discriminate|]. destruct (traverse f r); [discriminate|].
    intros [= <-]. cbn [length]. f_equal. apply IH. reflexivity.
Qed.


(** Whatever happens in the elog block, the files stay as they are and at
    most one POST goes out; it goes to the environment's URL, carries five
    entries, and its failure is answered by one console line. *)
Lemma post_to_elog_cases w self n_indexed n_total st st' r :
  post_to_elog w self n_indexed n_total st = (st', r) ->
  files st' = files st /\
  (posts st' = posts st \/
   exists url payload,
     environ w !! "JID_UPDATE_COUNTERS" = Some url /\
     posts st' = posts st ++ [(url, payload)] /\
     length payload = 5%nat /\
     r = inr tt /\
     console st' = match post_raises w url payload with
                   | None => console st
                   | Some _ => console st ++ [elog_failure]
                   end).
Proof.
  unfold post_to_elog.
  destruct (environ w !! "JID_UPDATE_COUNTERS") as [url|] eqn:Hurl.
  2:{ intros [= <- <-]. split; [reflexivity | left; reflexivity]. }
  rewrite run_bind. unfold read_lines.
  destruct (files st !! peakfinding_summary self) as [text|].
  2:{ intros [= <- <-]. split; [reflexivity | left; reflexivity]. }
  rewrite run_bind, run_comprehension.
  destruct (traverse _ _) as [e|pf_keys].
  { intros [= <- <-]. split; [reflexivity | left; reflexivity]. }
  rewrite run_bind, run_comprehension.
  destruct (traverse _ _) as [e|pf_vals].
  { intros [= <- <-]. split; [reflexivity | left; reflexivity]. }
  unfold try_except. rewrite !run_bind. unfold lift.
  destruct (index pf_keys 0) as [e|k0].
  { intros [= <- <-]. split; [reflexivity | left; reflexivity]. }
  rewrite run_bind. destruct (index pf_vals 0) as [e|v0].
  { intros [= <- <-]. split; [reflexivity | left; reflexivity]. }
  rewrite run_bind. destruct (index pf_keys 1) as [e|k1].
  { intros [= <- <-]. split; [reflexivity | left; reflexivity]. }
  rewrite run_bind. destruct (index pf_vals 1) as [e|v1].
  { intros [= <- <-]. split; [reflexivity | left; reflexivity]. }
  rewrite run_bind. destruct (index pf_keys 2) as [e|k2].
  { intros [= <- <-]. split; [reflexivity | left; reflexivity]. }
  rewrite run_bind. destruct (index pf_vals 2) as [e|v2].
  { intros [= <- <-]. split; [reflexivity | left; reflexivity]. }
  rewrite run_bind. destruct (true_div n_indexed n_total) as [e|rate].
  { intros [= <- <-]. split; [reflexivity | left; reflexivity]. }
  unfold requests_post.
  destruct (post_raises w url _) as [e|] eqn:Hpost.
  - intros [= <- <-]. split; [reflexivity|]. right.
    eexists url, _. repeat split; try reflexivity; try exact Hurl.
    rewrite Hpost. reflexivity.
  - intros [= <- <-]. split; [reflexivity|]. right.
    eexists url, _. repeat split; try reflexivity; try exact Hurl.
    rewrite Hpost. reflexivity.
Qed.


(** The good case: three leading lines, each with a colon. *)
Lemma run_post_to_elog w self n_indexed n_total st url text
      l0 l1 l2 rest k0 v0 r0 k1 v1 r1 k2 v2 r2 rate :
  environ w !! "JID_UPDATE_COUNTERS" = Some url ->
  files st !! peakfinding_summary self = Some text ->
  readlines (universal_newlines text) = l0 :: l1 :: l2 :: rest ->
  split ":" l0 = k0 :: v0 :: r0 ->
  split ":" l1 = k1 :: v1 :: r1 ->
  split ":" l2 = k2 :: v2 :: r2 ->
  true_div n_indexed n_total = inr rate ->
  let payload :=
    elog_payload k0 (strip "010" (strip " " v0)) k1 (strip "010" (strip " " v1))
                 k2 (strip "010" (strip " " v2)) n_indexed rate in
  post_to_elog w self n_indexed n_total st =
  match post_raises w url payload with
  | None => (posted url payload st, inr tt)
  | Some _ => (printed elog_failure (posted url payload st), inr tt)
  end.
Proof.
  intros Hurl Htext Hlines H0 H1 H2 Hrate payload.
  unfold post_to_elog. rewrite Hurl, run_bind. unfold read_lines.
  rewrite Htext, Hlines.
  change (take 3 (l0 :: l1 :: l2 :: rest)) with [l0; l1; l2].
  rewrite run_bind, run_comprehension.
  assert (Hkeys : traverse (fun item => index (split ":" item) 0) [l0; l1; l2]
                  = inr [k0; k1; k2]).
  { cbn [traverse]. rewrite H0, H1, H2. reflexivity. }
  rewrite Hkeys, run_bind, run_comprehension.
  assert (Hvals : traverse pf_val [l0; l1; l2]
                  = inr [strip "010" (strip " " v0); strip "010" (strip " " v1);
                         strip "010" (strip " " v2)]).
  { cbn [traverse]. unfold pf_val. rewrite H0, H1, H2. reflexivity. }
  rewrite Hvals.
  cbv beta iota delta [try_except mbind M_bind bind lift index nth_error].
  rewrite Hrate. cbv beta iota delta [requests_post].
  change (post_raises w url _) with (post_raises w url payload).
  destruct (post_raises w url payload); reflexivity.
Qed.

(** report on rank 0, as the sequence of its four blocks. *)
Lemma run_report_rank0 w self update_url st :
  rank self = 0 ->
  report w self update_url st =
  let n_indexed := indexed_count (files st) self in
  let st0 := printed (peakfinding_summary self) st in
  match hits_total (files st) self with
  | inl e => (st0, inl e)
  | inr n_total =>
      match true_div n_indexed n_total with
      | inl e =>
          (stored (<[indexing_summary self := summary_line1 n_indexed +:+ nl]>
                     (files st)) st0, inl e)
      | inr rate =>
          post_to_elog w self n_indexed n_total
            (stored (<[indexing_summary self :=
                         summary_line1 n_indexed +:+ nl +:+ summary_line2 rate +:+ nl]>
                       (files st)) st0)
      end
  end.
Proof.
  intros Hrank. unfold report. rewrite Hrank. cbn [Z.eqb].
  rewrite run_bind, run_count_indexed, run_bind, run_count_total.
  destruct (hits_total (files st) self) as [e|n_total]; [reflexivity|].
  rewrite run_bind, run_write_summary.
  cbn zeta. destruct (true_div _ n_total); reflexivity.
Qed.

Lemma snoc_neq {A : Type} (l : list A) (x : A) : l ++ [x] <> l.
Proof.
  intros H. apply (f_equal (@length A)) in H.
  rewrite length_app in H. cbn in H. lia.
Qed.

End ReportBlocks.

(* ===================================================================== *)
(** * Ranks other than 0, and the unused parameter *)
(* ===================================================================== *)

Section RankGate.
Import Py Os Indexer Spec Examples.

Example run7_rank1_is_constructed :
  new world_rank1 "mfxp19619" 7 "epix10k2M" "foo" "/d" (Some "/d/geom/r0007.geom")
  = inr run7_rank1.
Proof. vm_compute. reflexivity. Qed.

(** C7. On a rank other than 0, write_exe and report return at once and
    leave the whole state as it was: no file is written, nothing is posted
    (and nothing is printed). *)
Theorem C7_nonzero_rank_no_effect (w : World) (self : Indexer.t)
    (update_url : option string) (st : State) :
  rank self <> 0 ->
  write_exe self st = (st, inr tt) /\
  report w self update_url st = (st, inr tt).
Proof.
  intros Hrank. apply Z.eqb_neq in Hrank.
  unfold write_exe, report. rewrite Hrank. split; reflexivity.
Qed.

Lemma C7_nonzero_rank_no_effect_witness :
  write_exe run7_rank1 empty_disk = (empty_disk, inr tt) /\
  report world_rank1 run7_rank1 None empty_disk = (empty_disk, inr tt).
Proof.
  apply (C7_nonzero_rank_no_effect world_rank1 run7_rank1 None empty_disk).
  vm_compute. discriminate.
Defined.

(** C10. The update_url argument of report is dead: two calls that differ
    only in it end in the same state with the same outcome, whatever the
    files, the environment and the elog do. The URL posted to is the
    environment's JID_UPDATE_COUNTERS. *)
Theorem C10_update_url_ignored (w : World) (self : Indexer.t)
    (url1 url2 : option string) (st : State) :
  report w self url1 st = report w self url2 st /\
  (posts (report w self url1 st).1 = posts st \/
   exists url payload,
     environ w !! "JID_UPDATE_COUNTERS" = Some url /\
     posts (report w self url1 st).1 = posts st ++ [(url, payload)]).
Proof.
  split; [reflexivity|].
  destruct (Z.eq_dec (rank self) 0) as [Hrank|Hrank].
  - rewrite (run_report_rank0 w self url1 st Hrank). cbn zeta.
    destruct (hits_total (files st) self) as [e|n_total]; [left; reflexivity|].
    destruct (true_div _ n_total) as [e|rate]; [left; reflexivity|].
    match goal with |- context [post_to_elog ?a ?b ?c ?d ?s] =>
      destruct (post_to_elog a b c d s) as [st' r] eqn:Hrun end.
    apply post_to_elog_cases in Hrun as [_ [Hsame | (url & payload & Hurl & Hp & _)]].
    + left. exact Hsame.
    + right. exists url, payload. split; [exact Hurl | exact Hp].
  - left. apply Z.eqb_neq in Hrank. unfold report. rewrite Hrank. reflexivity.
Qed.

End RankGate.

(* ===================================================================== *)
(** * report: the summary file, the failure modes and the elog *)
(* ===================================================================== *)

Section Report.
Import Py Os Indexer Spec Examples.

Lemma run7_constructed : constructed world run7.
Proof.
  exists "mfxp19619", 7, "epix10k2M", "foo", "/d", (Some "/d/geom/r0007.geom"),
         None, "4,5,6", "mosflm", "5,5,5,1.5", None, true, true, true.
  exact run7_is_constructed.
Qed.

(** C4. The rate report writes is the indexed count divided by the total
    count, formatted with two decimals: 50 of 100 gives a line that ends in
    "0.50". The summary file consists of exactly two lines, the indexed
    count and then the rate. *)
Theorem C4_summary_two_lines (w : World) (self : Indexer.t)
    (update_url : option string) (st : State) (n_total : Z) (rate : float) :
  rank self = 0 ->
  hits_total (files st) self = inr n_total ->
  true_div (indexed_count (files st) self) n_total = inr rate ->
  let n_indexed := indexed_count (files st) self in
  let line1 := "Number of indexed events: " +:+ str_int n_indexed in
  let line2 := "Fractional indexing rate rate: " +:+ format_2f rate in
  let text := line1 +:+ nl +:+ line2 +:+ nl in
  files (report w self update_url st).1 !! indexing_summary self = Some text /\
  readlines text = [line1 +:+ nl; line2 +:+ nl] /\
  (n_indexed = 50 -> n_total = 100 -> line2 = "Fractional indexing rate rate: 0.50").
Proof.
  intros Hrank Htotal Hrate n_indexed line1 line2 text.
  split; [|split].
  - rewrite (run_report_rank0 w self update_url st Hrank). cbn zeta.
    rewrite Htotal, Hrate.
    match goal with |- context [post_to_elog ?a ?b ?c ?d ?s] =>
      destruct (post_to_elog a b c d s) as [st' r] eqn:Hrun end.
    apply post_to_elog_cases in Hrun as [Hfiles _].
    cbn [fst]. rewrite Hfiles. cbn [files stored]. apply lookup_insert_eq.
  - subst text. unfold nl. rewrite append_cons, append_nil_l.
    rewrite readlines_line.
    2:{ subst line1. rewrite one_line_append. unfold str_int.
        rewrite one_line_pretty_Z. reflexivity. }
    rewrite readlines_line.
    2:{ subst line2. rewrite one_line_append, one_line_format_2f. reflexivity. }
    reflexivity.
  - intros H50 H100. fold n_indexed in Hrate. rewrite H50, H100 in Hrate.
    vm_compute in Hrate. injection Hrate as <-. reflexivity.
Qed.

Lemma C4_summary_two_lines_witness :
  files (report world run7 None (disk 50 "100")).1 !! indexing_summary run7
  = Some ("Number of indexed events: 50" +:+ nl
          +:+ "Fractional indexing rate rate: 0.50" +:+ nl).
Proof.
  exact (proj1 (C4_summary_two_lines world run7 None (disk 50 "100") 100
                  (S754_finite false 4503599627370496 (-53))
                  eq_refl
                  ltac:(vm_compute; reflexivity)
                  ltac:(vm_compute; reflexivity))).
Defined.

(** C5. With a total-hit count of zero, report raises ZeroDivisionError to
    its caller. By then the summary file holds the first line only: no rate
    is written, and nothing is posted. *)
Theorem C5_zero_total_raises (w : World) (self : Indexer.t)
    (update_url : option string) (st : State) :
  rank self = 0 ->
  hits_total (files st) self = inr 0 ->
  exists st',
    report w self update_url st = (st', inl ZeroDivisionError) /\
    files st' = <[indexing_summary self :=
                    summary_line1 (indexed_count (files st) self) +:+ nl]> (files st) /\
    posts st' = posts st.
Proof.
  intros Hrank Htotal.
  rewrite (run_report_rank0 w self update_url st Hrank). cbn zeta.
  rewrite Htotal. unfold true_div. cbn [Z.eqb].
  eexists. split; [reflexivity|]. split; reflexivity.
Qed.

Lemma C5_zero_total_raises_witness :
  exists st',
    report world run7 None (disk 3 "0") = (st', inl ZeroDivisionError) /\
    files st' = <[indexing_summary run7 :=
                    summary_line1 (indexed_count (files (disk 3 "0")) run7) +:+ nl]>
                  (files (disk 3 "0")) /\
    posts st' = posts (disk 3 "0").
Proof.
  apply (C5_zero_total_raises world run7 None (disk 3 "0")).
  - reflexivity.
  - vm_compute. reflexivity.
Defined.

(** C6. When the POST to the elog raises, whatever the exception, report
    prints one line about it and returns normally; the summary file holds
    the two lines written before the POST and no other file changed. *)
Theorem C6_post_failure_caught (w : World) (self : Indexer.t)
    (update_url : option string) (st st' : State) (r : result unit)
    (url : string) (payload : list entry) (e : exn) :
  rank self = 0 ->
  report w self update_url st = (st', r) ->
  posts st' = posts st ++ [(url, payload)] ->
  post_raises w url payload = Some e ->
  r = inr tt /\
  console st' = console st ++ [peakfinding_summary self; elog_failure] /\
  exists n_total rate,
    hits_total (files st) self = inr n_total /\
    true_div (indexed_count (files st) self) n_total = inr rate /\
    files st' = <[indexing_summary self :=
                    summary_line1 (indexed_count (files st) self) +:+ nl
                    +:+ summary_line2 rate +:+ nl]> (files st).
Proof.
  intros Hrank Hrun Hposts Hfail.
  rewrite (run_report_rank0 w self update_url st Hrank) in Hrun. cbn zeta in Hrun.
  destruct (hits_total (files st) self) as [e1|n_total].
  { injection Hrun as <- <-. cbn in Hposts. symmetry in Hposts.
    destruct (snoc_neq _ _ Hposts). }
  destruct (true_div _ n_total) as [e1|rate] eqn:Hrate.
  { injection Hrun as <- <-. cbn in Hposts. symmetry in Hposts.
    destruct (snoc_neq _ _ Hposts). }
  apply post_to_elog_cases in Hrun as [Hfiles Hcases].
  cbn [files posts console stored printed] in Hfiles, Hcases.
  destruct Hcases as [Hsame | (url' & payload' & _ & Hp & _ & Hr & Hcons)].
  { rewrite Hsame in Hposts. symmetry in Hposts. destruct (snoc_neq _ _ Hposts). }
  rewrite Hp in Hposts. apply app_inj_tail in Hposts as [_ [= -> ->]].
  rewrite Hfail in Hcons.
  split; [exact Hr|]. split.
  - rewrite Hcons, <- app_assoc. reflexivity.
  - exists n_total, rate. split; [reflexivity|]. split; [exact Hrate | exact Hfiles].
Qed.

Lemma C6_post_failure_caught_witness :
  let out := report world_elog_down run7 None (disk 50 "100") in
  out.2 = inr tt /\
  console out.1 = console (disk 50 "100") ++ [peakfinding_summary run7; elog_failure] /\
  exists n_total rate,
    hits_total (files (disk 50 "100")) run7 = inr n_total /\
    true_div (indexed_count (files (disk 50 "100")) run7) n_total = inr rate /\
    files out.1 = <[indexing_summary run7 :=
                      summary_line1 (indexed_count (files (disk 50 "100")) run7) +:+ nl
                      +:+ summary_line2 rate +:+ nl]> (files (disk 50 "100")).
Proof.
  intros out.
  apply (C6_post_failure_caught world_elog_down run7 None (disk 50 "100") out.1 out.2
           "http://elog/counters"
           (elog_payload "Number of events processed" "200"
                         "Number of hits found" "100"
                         "Fractional hit rate" "0.50" 50
                         (S754_finite false 4503599627370496 (-53)))
           (OtherError "ConnectionError")).
  - reflexivity.
  - apply surjective_pairing.
  - vm_compute. reflexivity.
  - reflexivity.
Defined.

(** C9, as the code has it. With the progress URL set, report on rank 0
    issues exactly one POST, to that URL, once the total parses, the rate
    is computed and the peakfinding summary has three leading lines with a
    colon in each; its body then has exactly five entries: the key/value
    pairs of those three lines, then "Number of indexed events" and
    "Fractional indexing rate". *)
Theorem C9_one_post_five_entries (w : World) (self : Indexer.t)
    (update_url : option string) (st : State) (url text : string)
    (l0 l1 l2 : string) (rest : list string)
    (k0 v0 k1 v1 k2 v2 : string) (r0 r1 r2 : list string)
    (n_total : Z) (rate : float) :
  constructed w self ->
  rank self = 0 ->
  hits_total (files st) self = inr n_total ->
  true_div (indexed_count (files st) self) n_total = inr rate ->
  environ w !! "JID_UPDATE_COUNTERS" = Some url ->
  files st !! peakfinding_summary self = Some text ->
  readlines (universal_newlines text) = l0 :: l1 :: l2 :: rest ->
  split ":" l0 = k0 :: v0 :: r0 ->
  split ":" l1 = k1 :: v1 :: r1 ->
  split ":" l2 = k2 :: v2 :: r2 ->
  posts (report w self update_url st).1 =
  posts st ++
  [(url, [ Entry k0 (strip "010" (strip " " v0));
           Entry k1 (strip "010" (strip " " v1));
           Entry k2 (strip "010" (strip " " v2));
           Entry "Number of indexed events" (str_int (indexed_count (files st) self));
           Entry "Fractional indexing rate" (format_2f rate) ])].
Proof.
  intros Hself Hrank Htotal Hrate Hurl Htext Hlines H0 H1 H2.
  rewrite (run_report_rank0 w self update_url st Hrank). cbn zeta.
  rewrite Htotal, Hrate.
  erewrite run_post_to_elog; try eassumption.
  - destruct (post_raises w url _); reflexivity.
  - cbn [files stored printed]. rewrite lookup_insert_ne; [exact Htext|].
    exact (constructed_paths_distinct w self Hself).
Qed.

(** A peakfinding summary of fewer than three lines: building the payload
    raises IndexError inside the [try], the bare [except] prints its line,
    and no request goes out. *)
Example short_summary_nothing_posted :
  let st := fresh (<["/d/r0007/peakfinding.summary" := "Number of hits found: 10"]> ∅) in
  let out := report world run7 None st in
  out.2 = inr tt /\
  posts out.1 = [] /\
  console out.1 = [peakfinding_summary run7; elog_failure].
Proof. vm_compute. repeat split; reflexivity. Qed.

Lemma C9_one_post_five_entries_witness :
  posts (report world run7 None (disk 50 "100")).1 =
  [("http://elog/counters",
    [ Entry "Number of events processed" "200";
      Entry "Number of hits found" "100";
      Entry "Fractional hit rate" "0.50";
      Entry "Number of indexed events" "50";
      Entry "Fractional indexing rate" "0.50" ])].
Proof.
  apply (C9_one_post_five_entries world run7 None (disk 50 "100")
           "http://elog/counters" (peakfinding_text "100")
           ("Number of events processed: 200" +:+ nl)
           ("Number of hits found: 100" +:+ nl)
           ("Fractional hit rate: 0.50" +:+ nl) []
           "Number of events processed" (" 200" +:+ nl)
           "Number of hits found" (" 100" +:+ nl)
           "Fractional hit rate" (" 0.50" +:+ nl) [] [] []
           100 (S754_finite false 4503599627370496 (-53))).
  - exact run7_constructed.
  - reflexivity.
  - vm_compute. reflexivity.
  - vm_compute. reflexivity.
  - reflexivity.
  - reflexivity.
  - vm_compute. reflexivity.
  - vm_compute. reflexivity.
  - vm_compute. reflexivity.
  - vm_compute. reflexivity.
Defined.

(** The claim as the specification words it fails: the URL is set, the
    object is on rank 0 and report runs to its end and writes the indexing
    summary, yet no request goes out, because the peakfinding summary has
    two lines only and the third key is missing when the payload is
    built. *)
Lemma C9_url_set_no_post_counterexample :
  let st := fresh (<["/d/r0007_foo.stream" := chunks 50]>
                     (<["/d/r0007/peakfinding.summary" :=
                          "Number of events processed: 200" +:+ nl
                          +:+ "Number of hits found: 100" +:+ nl]> ∅)) in
  let out := report world run7 None st in
  environ world !! "JID_UPDATE_COUNTERS" = Some "http://elog/counters" /\
  rank run7 = 0 /\
  out.2 = inr tt /\
  files out.1 !! indexing_summary run7
  = Some ("Number of indexed events: 50" +:+ nl
          +:+ "Fractional indexing rate rate: 0.50" +:+ nl) /\
  posts out.1 = [] /\
  ~ (exists payload, posts out.1 = posts st ++ [("http://elog/counters", payload)]).
Proof.
  cbv zeta. split; [reflexivity|]. split; [reflexivity|].
  split; [vm_compute; reflexivity|]. split; [vm_compute; reflexivity|].
  assert (H : posts (report world run7 None
                (fresh (<["/d/r0007_foo.stream" := chunks 50]>
                   (<["/d/r0007/peakfinding.summary" :=
                        "Number of events processed: 200" +:+ nl
                        +:+ "Number of hits found: 100" +:+ nl]> ∅)))).1 = [])
    by (vm_compute; reflexivity).
  split; [exact H|].
  intros [payload Hp]. rewrite H in Hp. discriminate Hp.
Qed.

End Report.

(* ===================================================================== *)
(** * write_exe: the command line and the script *)
(* ===================================================================== *)

Section WriteExe.
Import Py Os Indexer Spec Examples.

(** Walks through the command text: a literal character is checked and
    dropped, a copied value is split off at the blank that follows it. *)
Ltac scan_command :=
  repeat first
    [ rewrite contains_sep by reflexivity
    | rewrite contains_cons;
      cbn [startswith_str Ascii.eqb Bool.eqb andb orb] ].

Lemma command_contains_multi (self : Indexer.t) :
  contains "--multi" (command self)
  = multi self || existsb (contains "--multi") (interpolated self).
Proof.
  unfold interpolated.
  destruct (multi self) eqn:Hmulti.
  - cbn [orb]. unfold command. rewrite Hmulti.
    destruct (profile self).
    + apply contains_app_l, contains_app_r. reflexivity.
    + apply contains_app_r. reflexivity.
  - cbn [orb]. unfold command. rewrite Hmulti.
    destruct (cell self), (no_revalidate self), (profile self);
      rewrite ?append_assoc; rewrite ?append_cons, ?append_nil_l;
      scan_command; cbn [existsb app];
      rewrite ?orb_false_r; reflexivity.
Qed.

Lemma contains_self (s b : string) : contains s (s +:+ b) = true.
Proof.
  apply contains_app_l.
  assert (Hs : startswith_str s s = true).
  { induction s as [|x s IH]; [reflexivity|].
    cbn [startswith_str]. rewrite Ascii.eqb_refl, IH. reflexivity. }
  destruct s; [reflexivity|]. rewrite contains_cons, Hs. reflexivity.
Qed.

Lemma contains_pdb_piece (c : string) : contains "--pdb=" (" --pdb=" +:+ c) = true.
Proof.
  change (" --pdb=" +:+ c) with (" " +:+ ("--pdb=" +:+ c)).
  apply contains_app_r, contains_self.
Qed.

Lemma command_contains_pdb (self : Indexer.t) :
  contains "--pdb=" (command self)
  = bool_decide (cell self <> None) || existsb (contains "--pdb=") (interpolated self).
Proof.
  unfold interpolated, command.
  destruct (cell self) as [c|].
  - rewrite bool_decide_eq_true_2 by discriminate. cbn [orb].
    match goal with |- context [?base +:+ (" --pdb=" +:+ c)] =>
      pose proof (contains_app_r "--pdb=" base _ (contains_pdb_piece c)) as Hc
    end.
    destruct (no_revalidate self), (multi self), (profile self);
      first [ exact Hc
            | exact (contains_app_l _ _ _ Hc)
            | exact (contains_app_l _ _ _ (contains_app_l _ _ _ Hc))
            | exact (contains_app_l _ _ _
                       (contains_app_l _ _ _ (contains_app_l _ _ _ Hc))) ].
  - rewrite bool_decide_eq_false_2 by (intros H; apply H; reflexivity).
    cbn [orb].
    destruct (no_revalidate self), (multi self), (profile self);
      rewrite ?append_assoc; rewrite ?append_cons, ?append_nil_l;
      scan_command; cbn [existsb app];
      rewrite ?orb_false_r; reflexivity.
Qed.

Lemma command_contains_cell (self : Indexer.t) (c : string) :
  cell self = Some c -> contains (" --pdb=" +:+ c) (command self) = true.
Proof.
  intros Hc. unfold command. rewrite Hc.
  assert (H : contains (" --pdb=" +:+ c) (" --pdb=" +:+ c) = true).
  { rewrite <- (append_nil_r (" --pdb=" +:+ c)) at 2. apply contains_self. }
  match goal with |- context [?base +:+ (" --pdb=" +:+ c)] =>
    pose proof (contains_app_r (" --pdb=" +:+ c) base _ H) as Hb
  end.
  destruct (no_revalidate self), (multi self), (profile self);
    first [ exact Hb
          | exact (contains_app_l _ _ _ Hb)
          | exact (contains_app_l _ _ _ (contains_app_l _ _ _ Hb))
          | exact (contains_app_l _ _ _
                     (contains_app_l _ _ _ (contains_app_l _ _ _ Hb))) ].
Qed.

Example run7_injected_is_constructed :
  __init__ world "mfxp19619" 7 "epix10k2M" "foo" "/d" (Some "/d/geom/r0007.geom")
    None "4,5,6" "mosflm --multi --pdb=my.cell" "5,5,5,1.5" None true false true
  = inr run7_injected.
Proof. vm_compute. reflexivity. Qed.

(** C3, as the code has it. The command contains " --multi" whenever the
    multi flag is set and " --pdb=<cell>" whenever a cell file was given.
    The converse holds up to the values copied into the command: the
    command contains "--multi" exactly when the flag is set or one of those
    values contains it, and likewise for "--pdb=". *)
Theorem C3_flags_in_command (self : Indexer.t) :
  (multi self = true -> contains " --multi" (command self) = true) /\
  (forall c, cell self = Some c -> contains (" --pdb=" +:+ c) (command self) = true) /\
  contains "--multi" (command self)
    = multi self || existsb (contains "--multi") (interpolated self) /\
  contains "--pdb=" (command self)
    = bool_decide (cell self <> None) || existsb (contains "--pdb=") (interpolated self).
Proof.
  split; [|split; [|split]].
  - intros Hmulti. unfold command. rewrite Hmulti.
    destruct (profile self).
    + apply contains_app_l, contains_app_r. reflexivity.
    + apply contains_app_r. reflexivity.
  - apply command_contains_cell.
  - apply command_contains_multi.
  - apply command_contains_pdb.
Qed.

Lemma C3_flags_in_command_witness :
  contains " --multi" (command run7_cell) = true /\
  contains " --pdb=/d/cell/lyso.cell" (command run7_cell) = true.
Proof.
  split.
  - exact (proj1 (C3_flags_in_command run7_cell) eq_refl).
  - exact (proj1 (proj2 (C3_flags_in_command run7_cell)) "/d/cell/lyso.cell" eq_refl).
Defined.

(** The claim as the specification words it fails: with multi off and no
    cell file, a methods string can bring both texts into the command. *)
Lemma C3_flags_iff_counterexample :
  ~ ((contains "--multi" (command run7_injected) = true <-> multi run7_injected = true) /\
     (contains "--pdb=" (command run7_injected) = true <-> cell run7_injected <> None)).
Proof.
  intros [[Hmulti _] _].
  assert (H : contains "--multi" (command run7_injected) = true)
    by (vm_compute; reflexivity).
  apply Hmulti in H. discriminate H.
Qed.

(** C8, as the code has it. On rank 0 write_exe leaves a script of three
    lines in tmp_exe: the shebang line, the indexamajig command, and the
    call of this module with --report; it then returns normally. *)
Theorem C8_script_three_lines (self : Indexer.t) (st : State) :
  rank self = 0 ->
  let text := "#!/bin/bash" +:+ nl +:+ command self +:+ nl
              +:+ command_report self +:+ nl in
  (write_exe self st).2 = inr tt /\
  files (write_exe self st).1 = <[tmp_exe self := text]> (files st) /\
  (one_line (command self) = true -> one_line (command_report self) = true ->
   readlines text = [ "#!/bin/bash" +:+ nl; command self +:+ nl;
                      command_report self +:+ nl ]).
Proof.
  intros Hrank text. unfold write_exe. rewrite Hrank. cbn [Z.eqb].
  cbv beta iota delta [mbind M_bind bind open_w write print stored printed
                       files console posts fst snd].
  split; [reflexivity|]. split.
  - rewrite !lookup_insert_eq, !insert_insert_eq. cbn [default from_option id].
    subst text. unfold nl. rewrite !append_assoc, !append_nil_l. reflexivity.
  - intros Hc Hr. subst text.
    rewrite readlines_first by reflexivity.
    rewrite readlines_first by exact Hc.
    rewrite readlines_last by exact Hr.
    reflexivity.
Qed.

Lemma C8_script_three_lines_witness :
  (write_exe run7 empty_disk).2 = inr tt /\
  files (write_exe run7 empty_disk).1
  = <[tmp_exe run7 := "#!/bin/bash" +:+ nl +:+ command run7 +:+ nl
                      +:+ command_report run7 +:+ nl]> (files empty_disk).
Proof.
  pose proof (C8_script_three_lines run7 empty_disk eq_refl) as (H1 & H2 & _).
  split; [exact H1 | exact H2].
Defined.

(** The script is not the two-line file of the specification: its first
    line is the shebang, and the two commands are lines two and three. *)
Lemma C8_two_lines_counterexample :
  exists text,
    files (write_exe run7 empty_disk).1 !! tmp_exe run7 = Some text /\
    readlines text =
      [ "#!/bin/bash" +:+ nl; command run7 +:+ nl; command_report run7 +:+ nl ] /\
    readlines text <> [ command run7 +:+ nl; command_report run7 +:+ nl ].
Proof.
  eexists. split; [vm_compute; reflexivity|].
  split; [vm_compute; reflexivity|].
  vm_compute. discriminate.
Qed.

End WriteExe.

(* ===================================================================== *)
(** * Run numbers survive the trip through text *)
(* ===================================================================== *)

Section RunNumbers.
Import Py Os Indexer Spec More.

Lemma all_chars_append (P : ascii -> bool) (a b : string) :
  all_chars P (a +:+ b) = all_chars P a && all_chars P b.
Proof.
  induction a as [|c a IH]; [reflexivity|].
  rewrite append_cons. cbn [all_chars]. rewrite IH, andb_assoc. reflexivity.
Qed.

Lemma all_chars_impl (P Q : ascii -> bool) (s : string) :
  (forall c, P c = true -> Q c = true) ->
  all_chars P s = true -> all_chars Q s = true.
Proof.
  intros HPQ. induction s as [|c s IH]; [reflexivity|].
  cbn [all_chars]. intros [Hc Hs]%andb_prop.
  rewrite (HPQ _ Hc), (IH Hs). reflexivity.
Qed.

Lemma digit_cases (d : N) (P : N -> Prop) :
  (d < 10)%N ->
  P 0%N -> P 1%N -> P 2%N -> P 3%N -> P 4%N -> P 5%N -> P 6%N -> P 7%N ->
  P 8%N -> P 9%N -> P d.
Proof.
  intros Hd. rewrite <- (N2Nat.id d).
  assert (Hk : (N.to_nat d < 10)%nat) by lia. revert Hk.
  generalize (N.to_nat d). intros k Hk.
  do 10 (destruct k as [|k]; [intros; assumption|]). lia.
Qed.

Lemma pretty_N_go_digits (x : N) :
  forall s, all_chars is_digit_or_minus s = true ->
            all_chars is_digit_or_minus (pretty_N_go x s) = true.
Proof.
  induction x as [x IH] using (well_founded_induction N.lt_wf_0). intros s Hs.
  destruct (N.eq_dec x 0%N) as [->|Hx].
  - rewrite pretty_N_go_0. exact Hs.
  - rewrite pretty_N_go_step by lia. apply IH.
    + apply N.div_lt; lia.
    + cbn [all_chars]. rewrite Hs, andb_true_r.
      apply (digit_cases (x mod 10)); try reflexivity.
      apply N.mod_lt. lia.
Qed.

Lemma pretty_Z_digits (z : Z) : all_chars is_digit_or_minus (pretty z) = true.
Proof.
  assert (HN : forall p : positive, all_chars is_digit_or_minus (pretty p) = true).
  { intros p. unfold pretty, pretty_positive, pretty, pretty_N.
    case_decide; [reflexivity|]. apply pretty_N_go_digits. reflexivity. }
  unfold pretty, pretty_Z. destruct z as [|p|p].
  - reflexivity.
  - apply HN.
  - rewrite all_chars_append, HN. reflexivity.
Qed.

Lemma zeros_digits (k : nat) : all_chars is_digit_or_minus (zeros k) = true.
Proof. induction k as [|k IH]; [reflexivity|]. cbn [zeros all_chars]. rewrite IH. reflexivity. Qed.

Lemma format_04_digits (n : Z) : all_chars is_digit_or_minus (format_04 n) = true.
Proof.
  unfold format_04. rewrite !all_chars_append, zeros_digits, pretty_Z_digits.
  destruct (n <? 0); reflexivity.
Qed.

(** White space is stripped from neither end of a string without any. *)
Lemma lstrip_ws_id (s : string) :
  all_chars (fun c => negb (isspace c)) s = true -> lstrip_ws s = s.
Proof.
  destruct s as [|c s]; [reflexivity|]. cbn [all_chars lstrip_ws].
  intros [Hc _]%andb_prop. apply negb_true_iff in Hc. rewrite Hc. reflexivity.
Qed.

Lemma rstrip_ws_id (s : string) :
  all_chars (fun c => negb (isspace c)) s = true -> rstrip_ws s = s.
Proof.
  induction s as [|c s IH]; [reflexivity|]. cbn [all_chars rstrip_ws].
  intros [Hc Hs]%andb_prop. apply negb_true_iff in Hc. rewrite (IH Hs), Hc.
  destruct s; reflexivity.
Qed.

Lemma digit_or_minus_not_space (c : ascii) :
  is_digit_or_minus c = true -> negb (isspace c) = true.
Proof.
  unfold is_digit_or_minus.
  destruct c as [[] [] [] [] [] [] [] []]; cbn; intros H;
    first [reflexivity | discriminate H].
Qed.

Lemma is_nat_pretty_N_char (d : N) :
  (d < 10)%N -> Ascii.is_nat (pretty_N_char d) = Some (N.to_nat d).
Proof. intros Hd. apply (digit_cases d); [exact Hd | reflexivity ..]. Qed.

(** Reading back the digits that [pretty_N_go] wrote. *)
Lemma digits_pretty_N_go (x : N) :
  (0 < x)%N ->
  forall s b, digits (pretty_N_go x s) 0 b = digits s (Z.of_N x) true.
Proof.
  induction x as [x IH] using (well_founded_induction N.lt_wf_0). intros Hx s b.
  rewrite pretty_N_go_step by exact Hx.
  assert (Hmod : (x mod 10 < 10)%N) by (apply N.mod_lt; lia).
  destruct (N.eq_dec (x / 10)%N 0%N) as [Hq|Hq].
  - rewrite Hq, pretty_N_go_0. cbn [digits].
    rewrite (is_nat_pretty_N_char _ Hmod). f_equal.
    pose proof (N.div_mod' x 10%N). lia.
  - rewrite IH; [| apply N.div_lt; lia | apply N.neq_0_lt_0; exact Hq].
    cbn [digits]. rewrite (is_nat_pretty_N_char _ Hmod). f_equal.
    pose proof (N.div_mod' x 10%N). lia.
Qed.

Lemma digits_pretty_abs (n : Z) (b : bool) :
  digits (pretty (Z.abs n)) 0 b = Some (Z.abs n).
Proof.
  assert (Hpos : forall p, digits (pretty (Z.pos p)) 0 b = Some (Z.pos p)).
  { intros p. unfold pretty, pretty_Z, pretty, pretty_positive, pretty, pretty_N.
    case_decide; [discriminate|].
    rewrite digits_pretty_N_go by lia. reflexivity. }
  destruct n as [|p|p]; [reflexivity | apply Hpos | apply Hpos].
Qed.

Lemma digits_zeros (k : nat) (rest : string) (b : bool) :
  digits (zeros k +:+ rest) 0 b
  = digits rest 0 (if (0 <? k)%nat then true else b).
Proof.
  revert b. induction k as [|k IH]; intros b; [reflexivity|].
  cbn [zeros]. rewrite append_cons. cbn [digits Ascii.is_nat].
  change (10 * 0 + Z.of_nat 0) with 0. rewrite IH.
  destruct (0 <? k)%nat; reflexivity.
Qed.

(** [int] on a string of digits, with or without a minus sign in front. *)
Lemma int_unsigned (s : string) (z : Z) :
  all_chars is_digit_or_minus s = true ->
  startswith s "-" = false ->
  digits s 0 false = Some z ->
  int s = inr z.
Proof.
  intros Hs Hminus Hd. unfold int.
  assert (Hsp : all_chars (fun c => negb (isspace c)) s = true)
    by (exact (all_chars_impl _ _ s digit_or_minus_not_space Hs)).
  rewrite (lstrip_ws_id s Hsp), (rstrip_ws_id s Hsp). cbn zeta.
  destruct s as [|c r]; [discriminate Hd|].
  cbn [all_chars] in Hs. apply andb_prop in Hs as [Hc _].
  cbn [startswith] in Hminus.
  destruct c as [[] [] [] [] [] [] [] []];
    first [discriminate Hc | discriminate Hminus | rewrite Hd; reflexivity].
Qed.

Lemma int_signed (r : string) (z : Z) :
  all_chars is_digit_or_minus r = true ->
  digits r 0 false = Some z ->
  int (String "-" r) = inr (- z).
Proof.
  intros Hr Hd. unfold int.
  assert (Hsp : all_chars (fun c => negb (isspace c)) (String "-" r) = true).
  { apply (all_chars_impl _ _ _ digit_or_minus_not_space).
    cbn [all_chars]. rewrite Hr. reflexivity. }
  rewrite (lstrip_ws_id _ Hsp), (rstrip_ws_id _ Hsp). cbn zeta.
  rewrite Hd. reflexivity.
Qed.

Lemma pretty_abs_head (n : Z) : startswith (pretty (Z.abs n)) "-" = false.
Proof.
  pose proof (digits_pretty_abs n false) as Hd.
  destruct (pretty (Z.abs n)) as [|c r]; [reflexivity|].
  cbn [digits] in Hd. cbn [startswith].
  destruct (Ascii.eqb_spec c "-") as [->|]; [discriminate Hd | reflexivity].
Qed.

Lemma int_str_int (n : Z) : int (str_int n) = inr n.
Proof.
  unfold str_int. destruct n as [|p|p].
  - reflexivity.
  - apply int_unsigned.
    + apply pretty_Z_digits.
    + apply (pretty_abs_head (Z.pos p)).
    + apply (digits_pretty_abs (Z.pos p)).
  - change (pretty (Z.neg p)) with (String "-" (pretty (Z.abs (Z.neg p)))).
    change (Z.neg p) with (- Z.abs (Z.neg p)) at 2.
    apply int_signed.
    + apply pretty_Z_digits.
    + apply digits_pretty_abs.
Qed.

Lemma int_format_04 (n : Z) : int (format_04 n) = inr n.
Proof.
  unfold format_04. destruct (Z.ltb_spec n 0) as [Hneg|Hpos].
  - rewrite append_cons, append_nil_l.
    replace n with (- Z.abs n) at 3 by lia.
    apply int_signed.
    + rewrite all_chars_append, zeros_digits, pretty_Z_digits. reflexivity.
    + rewrite digits_zeros, digits_pretty_abs. reflexivity.
  - rewrite append_nil_l.
    replace n with (Z.abs n) at 3 by lia.
    apply int_unsigned.
    + rewrite all_chars_append, zeros_digits, pretty_Z_digits. reflexivity.
    + destruct (4 - String.length EmptyString - String.length (pretty (Z.abs n)))%nat;
        [apply pretty_abs_head | reflexivity].
    + rewrite digits_zeros, digits_pretty_abs. reflexivity.
Qed.

(** X1. Converting a run number to text and back gives the number again,
    for [str] (the [-r] argument of the reporting call, read by argparse
    with [type=int]) and for the [04] format of the directory names. *)
Theorem int_of_formatted_run (n : Z) :
  int (str_int n) = inr n /\ int (format_04 n) = inr n.
Proof. split; [apply int_str_int | apply int_format_04]. Qed.

End RunNumbers.

(* ===================================================================== *)
(** * More on the constructor *)
(* ===================================================================== *)

Section ConstructorMore.
Import Py Os Indexer Spec Examples More.

Ltac unfold_init :=
  unfold __init__, _retrieve_paths, _parallel_logic, environ_item;
  cbn [exp run det_type taskdir tag tag_cxi geom cell rad methods tolerance
       no_revalidate multi profile lst stream tmp_exe peakfinding_summary
       indexing_summary script_path python_path nproc rank].

Lemma int_raises_ValueError (s : string) (e : exn) : int s = inl e -> e = ValueError.
Proof.
  unfold int. cbn zeta.
  match goal with |- match ?p with _ => _ end = _ -> _ => destruct p end;
    [discriminate | intros [= <-]; reflexivity].
Qed.

(** X2. The constructor raises KeyError('WHICHPYTHON') when that variable
    is missing, whatever else is set; with it set, KeyError('NCORES') when
    NCORES is missing and ValueError when NCORES is not an integer. It
    returns an object only if WHICHPYTHON is set and NCORES parses, and it
    does return one when moreover the core count is at most 1, the case in
    which MPI is not touched. *)
Theorem init_raises_or_returns
    w exp0 run0 det tag0 dir geom0 cell0 rad0 meth tol tc nr mu pr :
  let made := __init__ w exp0 run0 det tag0 dir geom0 cell0 rad0 meth tol tc nr mu pr in
  (environ w !! "WHICHPYTHON" = None -> made = inl (KeyError "WHICHPYTHON")) /\
  (is_Some (environ w !! "WHICHPYTHON") -> environ w !! "NCORES" = None ->
   made = inl (KeyError "NCORES")) /\
  (forall np e, is_Some (environ w !! "WHICHPYTHON") ->
                environ w !! "NCORES" = Some np -> int np = inl e ->
                made = inl ValueError) /\
  (forall self, made = inr self ->
                exists py np n, environ w !! "WHICHPYTHON" = Some py /\
                                environ w !! "NCORES" = Some np /\ int np = inr n) /\
  (forall py np n, environ w !! "WHICHPYTHON" = Some py ->
                   environ w !! "NCORES" = Some np -> int np = inr n -> n <= 1 ->
                   exists self, made = inr self /\ rank self = 0 /\
                                python_path self = py /\ nproc self = np).
Proof.
  intros made. subst made. repeat split.
  - intros Hpy. unfold_init. rewrite Hpy. reflexivity.
  - intros [py Hpy] Hnp. unfold_init. rewrite Hpy, Hnp. reflexivity.
  - intros np e [py Hpy] Hnp He. unfold_init. rewrite Hpy, Hnp, He.
    rewrite (int_raises_ValueError _ _ He). reflexivity.
  - intros self Hself.
    destruct (init_inv _ _ _ _ _ _ _ _ _ _ _ _ _ _ _ _ Hself)
      as (py & np & n & Hpy & Hnp & Hn & _).
    exists py, np, n. repeat split; assumption.
  - intros py np n Hpy Hnp Hn Hle. unfold_init. rewrite Hpy, Hnp, Hn.
    destruct (Z.ltb_spec 1 n); [lia|].
    eexists. repeat split.
Qed.

Lemma init_raises_or_returns_witness :
  new world_no_env "mfxp19619" 7 "epix10k2M" "foo" "/d" None
  = inl (KeyError "WHICHPYTHON").
Proof.
  exact (proj1 (init_raises_or_returns world_no_env "mfxp19619" 7 "epix10k2M" "foo"
                  "/d" None None "4,5,6" "mosflm" "5,5,5,1.5" None true true true)
           eq_refl).
Defined.

(** The script path that the constructor stores. *)
Lemma init_tmp_exe w exp0 run0 det tag0 dir geom0 cell0 rad0 meth tol tc nr mu pr self :
  __init__ w exp0 run0 det tag0 dir geom0 cell0 rad0 meth tol tc nr mu pr = inr self ->
  tmp_exe self =
  match environ w !! "TMP_EXE" with
  | Some v => v
  | None => under dir ("r" +:+ format_04 run0 +:+ "/index_r" +:+ format_04 run0 +:+ ".sh")
  end.
Proof.
  unfold_init.
  destruct (environ w !! "WHICHPYTHON") as [py|]; [|discriminate].
  destruct (environ w !! "NCORES") as [np|]; [|discriminate].
  destruct (int np) as [e|n]; [discriminate|].
  intros [= <-]. cbn [tmp_exe].
  destruct (environ w !! "TMP_EXE"); [reflexivity|].
  unfold rdir. cbn [run].
  rewrite !append_assoc, !append_cons, !append_nil_l.
  apply os_path_join_relative. discriminate.
Qed.

(** What write_exe leaves behind on rank 0. *)
Lemma run_write_exe_rank0 (self : Indexer.t) (st : State) :
  rank self = 0 ->
  write_exe self st =
  (printed ("Indexing executable written to " +:+ tmp_exe self)
     (stored (<[tmp_exe self := script_text self]> (files st)) st), inr tt).
Proof.
  intros Hrank. unfold write_exe. rewrite Hrank. cbn [Z.eqb].
  cbv beta iota delta [mbind M_bind bind open_w write print stored printed
                       files console posts fst snd].
  rewrite !lookup_insert_eq, !insert_insert_eq. cbn [default from_option id].
  unfold script_text, nl. rewrite !append_assoc, !append_nil_l. reflexivity.
Qed.

(** X3. The rank guard follows NCORES, not MPI: with a core count of at
    most 1 the object has rank 0 whatever MPI would report, so write_exe
    writes the script; with more than one core the rank is MPI's. *)
Theorem rank_follows_ncores
    w exp0 run0 det tag0 dir geom0 cell0 rad0 meth tol tc nr mu pr self np n st :
  __init__ w exp0 run0 det tag0 dir geom0 cell0 rad0 meth tol tc nr mu pr = inr self ->
  environ w !! "NCORES" = Some np ->
  int np = inr n ->
  (n <= 1 -> rank self = 0 /\
             files (write_exe self st).1 !! tmp_exe self = Some (script_text self)) /\
  (1 < n -> rank self = mpi_rank w).
Proof.
  intros Hinit Hnp Hn.
  assert (Hrank : rank self = if 1 <? n then mpi_rank w else 0).
  { revert Hinit. unfold_init.
    destruct (environ w !! "WHICHPYTHON") as [py|]; [|discriminate].
    rewrite Hnp, Hn. intros [= <-]. reflexivity. }
  split.
  - intros Hle. destruct (Z.ltb_spec 1 n); [lia|]. split; [exact Hrank|].
    rewrite (run_write_exe_rank0 self st Hrank). cbn [fst files stored printed].
    apply lookup_insert_eq.
  - intros Hlt. destruct (Z.ltb_spec 1 n); [exact Hrank | lia].
Qed.

Lemma rank_follows_ncores_witness :
  rank run7 = 0 /\
  files (write_exe run7 empty_disk).1 !! tmp_exe run7 = Some (script_text run7).
Proof.
  refine (proj1 (rank_follows_ncores world_one_core_rank3 "mfxp19619" 7 "epix10k2M"
                   "foo" "/d" (Some "/d/geom/r0007.geom") None "4,5,6" "mosflm"
                   "5,5,5,1.5" None true true true run7 "1" 1 empty_disk _ _ _) _).
  - vm_compute. reflexivity.
  - reflexivity.
  - reflexivity.
  - lia.
Defined.

(** X4. TMP_EXE redirects the script: when the variable is set, tmp_exe is
    its value as it stands, independent of taskdir and run, and write_exe
    on rank 0 puts the script there; when it is not set, tmp_exe is
    r{run:04}/index_r{run:04}.sh under taskdir. *)
Theorem tmp_exe_override
    w exp0 run0 det tag0 dir geom0 cell0 rad0 meth tol tc nr mu pr self st :
  __init__ w exp0 run0 det tag0 dir geom0 cell0 rad0 meth tol tc nr mu pr = inr self ->
  (forall v, environ w !! "TMP_EXE" = Some v ->
             tmp_exe self = v /\
             (rank self = 0 ->
              files (write_exe self st).1 = <[v := script_text self]> (files st))) /\
  (environ w !! "TMP_EXE" = None ->
   tmp_exe self
   = under dir ("r" +:+ format_04 run0 +:+ "/index_r" +:+ format_04 run0 +:+ ".sh")).
Proof.
  intros Hinit. pose proof (init_tmp_exe _ _ _ _ _ _ _ _ _ _ _ _ _ _ _ _ Hinit) as Htmp.
  split.
  - intros v Hv. rewrite Hv in Htmp. split; [exact Htmp|].
    intros Hrank. rewrite (run_write_exe_rank0 self st Hrank), Htmp. reflexivity.
  - intros Hnone. rewrite Hnone in Htmp. exact Htmp.
Qed.

Lemma tmp_exe_override_witness :
  exists self,
    new world_tmp_exe "mfxp19619" 7 "epix10k2M" "foo" "/d" None = inr self /\
    tmp_exe self = "/scratch/job.sh".
Proof.
  eexists. split; [vm_compute; reflexivity|].
  refine (proj1 (proj1 (tmp_exe_override world_tmp_exe "mfxp19619" 7 "epix10k2M"
                          "foo" "/d" None None "4,5,6" "mosflm" "5,5,5,1.5" None
                          true true true _ empty_disk _) "/scratch/job.sh" _)).
  - vm_compute. reflexivity.
  - reflexivity.
Defined.

End ConstructorMore.

(* ===================================================================== *)
(** * The five paths of a run *)
(* ===================================================================== *)

Section PathsMore.
Import Py Os Indexer Spec Examples More.

(** The five paths, each as a tail behind taskdir and r{run:04}. *)
Lemma init_paths w exp0 run0 det tag0 dir geom0 cell0 rad0 meth tol tc nr mu pr self :
  __init__ w exp0 run0 det tag0 dir geom0 cell0 rad0 meth tol tc nr mu pr = inr self ->
  environ w !! "TMP_EXE" = None ->
  paths self =
  (fun tail => under dir ("r" +:+ format_04 run0 +:+ tail)) <$>
    [ "/r" +:+ format_04 run0 +:+ normalised tc +:+ ".lst";
      "_" +:+ tag0 +:+ ".stream";
      "/index_r" +:+ format_04 run0 +:+ ".sh";
      "/peakfinding" +:+ normalised tc +:+ ".summary";
      "/indexing_" +:+ tag0 +:+ ".summary" ].
Proof.
  intros Hinit Htmp.
  pose proof (init_tmp_exe _ _ _ _ _ _ _ _ _ _ _ _ _ _ _ _ Hinit) as Hexe.
  rewrite Htmp in Hexe.
  destruct (init_inv _ _ _ _ _ _ _ _ _ _ _ _ _ _ _ _ Hinit)
    as (py & np & n & _ & _ & _ & _ & Hrun & _ & _ & _ & _ & _ & _ & _ & _ & _
        & _ & _ & _ & Hlst & Hstream & Hpeak & Hidx & _).
  unfold paths. rewrite Hlst, Hstream, Hexe, Hpeak, Hidx. unfold rdir. rewrite Hrun.
  cbn [fmap list_fmap].
  rewrite !append_assoc, !append_cons, !append_nil_l.
  rewrite !os_path_join_relative by discriminate.
  reflexivity.
Qed.

(** X5. Without TMP_EXE the five paths of an Indexer (lst, stream, script,
    peakfinding summary, indexing summary) are pairwise different, whatever
    the run, the tags and taskdir: no output can land on an input. *)
Theorem paths_pairwise_distinct
    w exp0 run0 det tag0 dir geom0 cell0 rad0 meth tol tc nr mu pr self :
  __init__ w exp0 run0 det tag0 dir geom0 cell0 rad0 meth tol tc nr mu pr = inr self ->
  environ w !! "TMP_EXE" = None ->
  NoDup (paths self).
Proof.
  intros Hinit Htmp. rewrite (init_paths _ _ _ _ _ _ _ _ _ _ _ _ _ _ _ _ Hinit Htmp).
  apply NoDup_fmap_2.
  { intros a b H. apply under_inj in H.
    exact (append_inj_l _ _ _ (append_inj_l _ _ _ H)). }
  rewrite !append_cons, !append_nil_l.
  repeat (apply NoDup_cons; split);
    first [ apply NoDup_nil_2
          | rewrite ?not_elem_of_cons; repeat split; try discriminate;
            apply not_elem_of_nil ].
Qed.

Lemma paths_pairwise_distinct_witness : NoDup (paths run7).
Proof.
  apply (paths_pairwise_distinct world "mfxp19619" 7 "epix10k2M" "foo" "/d"
           (Some "/d/geom/r0007.geom") None "4,5,6" "mosflm" "5,5,5,1.5" None
           true true true run7).
  - exact run7_is_constructed.
  - reflexivity.
Defined.

Lemma normalised_idempotent (tc : option string) :
  normalised (Some (normalised tc)) = normalised tc.
Proof.
  destruct tc as [[|c r]|]; try reflexivity.
  unfold normalised. destruct (Ascii.eqb c "_") eqn:Hc; [rewrite Hc|]; reflexivity.
Qed.

Lemma init_paths_all w exp0 run0 det tag0 dir geom0 cell0 rad0 meth tol tc nr mu pr self :
  __init__ w exp0 run0 det tag0 dir geom0 cell0 rad0 meth tol tc nr mu pr = inr self ->
  tag_cxi self = Some (normalised tc) /\
  paths self =
  [ os_path_join dir ("r" +:+ format_04 run0 +:+ "/" +:+ "r" +:+ format_04 run0
                      +:+ normalised tc +:+ ".lst");
    os_path_join dir ("r" +:+ format_04 run0 +:+ "_" +:+ tag0 +:+ ".stream");
    match environ w !! "TMP_EXE" with
    | Some v => v
    | None => under dir ("r" +:+ format_04 run0 +:+ "/index_r" +:+ format_04 run0
                         +:+ ".sh")
    end;
    os_path_join dir ("r" +:+ format_04 run0 +:+ "/peakfinding" +:+ normalised tc
                      +:+ ".summary");
    os_path_join dir ("r" +:+ format_04 run0 +:+ "/indexing_" +:+ tag0
                      +:+ ".summary") ].
Proof.
  intros Hinit.
  pose proof (init_tmp_exe _ _ _ _ _ _ _ _ _ _ _ _ _ _ _ _ Hinit) as Hexe.
  destruct (init_inv _ _ _ _ _ _ _ _ _ _ _ _ _ _ _ _ Hinit)
    as (py & np & n & _ & _ & _ & _ & Hrun & _ & _ & _ & Htc & _ & _ & _ & _ & _
        & _ & _ & _ & Hlst & Hstream & Hpeak & Hidx & _).
  split; [exact Htc|].
  unfold paths. rewrite Hlst, Hstream, Hexe, Hpeak, Hidx. unfold rdir. rewrite Hrun.
  rewrite !append_assoc. reflexivity.
Qed.

(** X6. The reporting call that write_exe puts into the script finds the
    files of the indexing call: an Indexer built in the same environment
    with the same run, tag and taskdir, and with the stored tag_cxi passed
    back (or left out when it is empty, as command_report does), has the
    same five paths and the same tag_cxi, whatever its other arguments. *)
Theorem paths_rebuilt
    w exp0 run0 det tag0 dir geom0 cell0 rad0 meth tol tc nr mu pr self
    exp1 det1 geom1 cell1 rad1 meth1 tol1 tc1 nr1 mu1 pr1 :
  __init__ w exp0 run0 det tag0 dir geom0 cell0 rad0 meth tol tc nr mu pr = inr self ->
  tc1 = tag_cxi self \/ (tag_cxi self = Some EmptyString /\ tc1 = None) ->
  exists self1,
    __init__ w exp1 run0 det1 tag0 dir geom1 cell1 rad1 meth1 tol1 tc1 nr1 mu1 pr1
    = inr self1 /\
    paths self1 = paths self /\
    tag_cxi self1 = tag_cxi self.
Proof.
  intros Hinit Htc1.
  destruct (init_inv _ _ _ _ _ _ _ _ _ _ _ _ _ _ _ _ Hinit)
    as (py & np & n & Hpy & Hnp & Hn & _).
  destruct (init_returns w exp1 run0 det1 tag0 dir geom1 cell1 rad1 meth1 tol1 tc1
              nr1 mu1 pr1 py np n Hpy Hnp Hn) as [self1 Hinit1].
  exists self1. split; [exact Hinit1|].
  destruct (init_paths_all _ _ _ _ _ _ _ _ _ _ _ _ _ _ _ _ Hinit) as [Htc Hpaths].
  destruct (init_paths_all _ _ _ _ _ _ _ _ _ _ _ _ _ _ _ _ Hinit1) as [Htc' Hpaths'].
  assert (Hnorm : normalised tc1 = normalised tc).
  { destruct Htc1 as [-> | [Hempty ->]].
    - rewrite Htc. apply normalised_idempotent.
    - rewrite Htc in Hempty. injection Hempty as Hempty. rewrite Hempty. reflexivity. }
  rewrite Hpaths, Hpaths', Htc, Htc', Hnorm. split; reflexivity.
Qed.

Lemma paths_rebuilt_witness :
  exists self1,
    __init__ world "mfxp19619" 7 "epix10k2M" "foo" "/d" None None "4,5,6"
      "xgandalf,mosflm,xds" "5,5,5,1.5" (Some "_bar") true true true = inr self1 /\
    paths self1 = paths run7_bar /\
    tag_cxi self1 = tag_cxi run7_bar.
Proof.
  apply (paths_rebuilt world "mfxp19619" 7 "epix10k2M" "foo" "/d"
           (Some "/d/geom/r0007.geom") None "4,5,6" "mosflm" "5,5,5,1.5"
           (Some "bar") true true true run7_bar).
  - exact run7_bar_is_constructed.
  - left. reflexivity.
Defined.

(** A separator that neither prefix contains marks the same place in both. *)
Lemma append_sep_inj (a b x y : string) (c : ascii) :
  has_char c a = false -> has_char c b = false ->
  a +:+ String c x = b +:+ String c y -> a = b.
Proof.
  revert b. induction a as [|d a IH]; intros [|e b] Ha Hb H.
  - reflexivity.
  - rewrite append_nil_l, append_cons in H. injection H as <- _.
    cbn [has_char] in Hb. rewrite Ascii.eqb_refl in Hb. discriminate Hb.
  - rewrite append_nil_l, append_cons in H. injection H as -> _.
    cbn [has_char] in Ha. rewrite Ascii.eqb_refl in Ha. discriminate Ha.
  - rewrite !append_cons in H. injection H as <- H.
    cbn [has_char] in Ha, Hb.
    apply orb_false_elim in Ha as [_ Ha]. apply orb_false_elim in Hb as [_ Hb].
    rewrite (IH b Ha Hb H). reflexivity.
Qed.

Lemma has_char_all_chars (P : ascii -> bool) (c : ascii) (s : string) :
  P c = false -> all_chars P s = true -> has_char c s = false.
Proof.
  intros Hc. induction s as [|d s IH]; [reflexivity|].
  cbn [all_chars has_char]. intros [Hd Hs]%andb_prop. rewrite (IH Hs), orb_false_r.
  destruct (Ascii.eqb_spec d c) as [->|]; [congruence | reflexivity].
Qed.

Lemma format_04_inj (m n : Z) : format_04 m = format_04 n -> m = n.
Proof.
  intros H. pose proof (int_format_04 m) as Hm.
  rewrite H, (int_format_04 n) in Hm. congruence.
Qed.

(** X7. Runs do not collide: two Indexers with the same taskdir and
    different run numbers differ in lst, stream, peakfinding summary and
    indexing summary, whatever their tags. *)
Theorem runs_do_not_collide
    w exp0 run0 det tag0 dir geom0 cell0 rad0 meth tol tc nr mu pr self
    w1 exp1 run1 det1 tag1 geom1 cell1 rad1 meth1 tol1 tc1 nr1 mu1 pr1 self1 :
  __init__ w exp0 run0 det tag0 dir geom0 cell0 rad0 meth tol tc nr mu pr = inr self ->
  __init__ w1 exp1 run1 det1 tag1 dir geom1 cell1 rad1 meth1 tol1 tc1 nr1 mu1 pr1
  = inr self1 ->
  run0 <> run1 ->
  lst self <> lst self1 /\ stream self <> stream self1 /\
  peakfinding_summary self <> peakfinding_summary self1 /\
  indexing_summary self <> indexing_summary self1.
Proof.
  intros Hinit Hinit1 Hrun.
  destruct (init_paths_all _ _ _ _ _ _ _ _ _ _ _ _ _ _ _ _ Hinit) as [_ Hp].
  destruct (init_paths_all _ _ _ _ _ _ _ _ _ _ _ _ _ _ _ _ Hinit1) as [_ Hp1].
  unfold paths in Hp, Hp1.
  injection Hp as Hlst Hstream _ Hpeak Hidx.
  injection Hp1 as Hlst1 Hstream1 _ Hpeak1 Hidx1.
  rewrite Hlst, Hstream, Hpeak, Hidx, Hlst1, Hstream1, Hpeak1, Hidx1.
  rewrite !append_cons, !append_nil_l.
  rewrite !os_path_join_relative by discriminate.
  assert (Hslash : forall n, has_char "/" (format_04 n) = false)
    by (intros n; apply (has_char_all_chars is_digit_or_minus);
        [reflexivity | apply format_04_digits]).
  assert (Hunder : forall n, has_char "_" (format_04 n) = false)
    by (intros n; apply (has_char_all_chars is_digit_or_minus);
        [reflexivity | apply format_04_digits]).
  repeat split; intros H; apply under_inj in H; injection H as H;
    apply Hrun, format_04_inj;
    first [ exact (append_sep_inj _ _ _ _ "/" (Hslash _) (Hslash _) H)
          | exact (append_sep_inj _ _ _ _ "_" (Hunder _) (Hunder _) H) ].
Qed.

Lemma runs_do_not_collide_witness :
  exists self1,
    new world "mfxp19619" 8 "epix10k2M" "foo" "/d" None = inr self1 /\
    lst run7 <> lst self1 /\ stream run7 <> stream self1 /\
    peakfinding_summary run7 <> peakfinding_summary self1 /\
    indexing_summary run7 <> indexing_summary self1.
Proof.
  eexists. split; [vm_compute; reflexivity|].
  refine (runs_do_not_collide world "mfxp19619" 7 "epix10k2M" "foo" "/d"
            (Some "/d/geom/r0007.geom") None "4,5,6" "mosflm" "5,5,5,1.5" None
            true true true run7
            world "mfxp19619" 8 "epix10k2M" "foo" None None "4,5,6" "mosflm"
            "5,5,5,1.5" None true true true _ run7_is_constructed _ _).
  - vm_compute. reflexivity.
  - lia.
Defined.

End PathsMore.

(* ===================================================================== *)
(** * More on write_exe *)
(* ===================================================================== *)

Section WriteExeMore.
Import Py Os Indexer Spec Examples More.

Ltac scan_text :=
  repeat first
    [ rewrite contains_sep by reflexivity
    | rewrite contains_cons;
      cbn [startswith_str Ascii.eqb Bool.eqb andb orb] ].

Lemma run_write_exe_other (self : Indexer.t) (st : State) :
  rank self <> 0 -> write_exe self st = (st, inr tt).
Proof.
  intros Hrank. apply Z.eqb_neq in Hrank. unfold write_exe. rewrite Hrank. reflexivity.
Qed.

Lemma write_exe_effects (self : Indexer.t) (st : State) :
  posts (write_exe self st).1 = posts st /\
  (forall path, path <> tmp_exe self ->
                files (write_exe self st).1 !! path = files st !! path).
Proof.
  destruct (Z.eq_dec (rank self) 0) as [Hrank|Hrank].
  - rewrite (run_write_exe_rank0 self st Hrank). cbn [fst snd posts files stored printed].
    repeat split. intros path Hpath. apply lookup_insert_ne. congruence.
  - rewrite (run_write_exe_other self st Hrank). repeat split.
Qed.

(** X8. write_exe never posts and changes no file but tmp_exe: on every
    rank, every other path holds afterwards what it held before. *)
Theorem write_exe_frame (self : Indexer.t) (st : State) :
  posts (write_exe self st).1 = posts st /\
  (forall path, path <> tmp_exe self ->
                files (write_exe self st).1 !! path = files st !! path).
Proof. apply write_exe_effects. Qed.

Lemma write_exe_frame_witness :
  posts (write_exe run7 (disk 50 "100")).1 = posts (disk 50 "100") /\
  files (write_exe run7 (disk 50 "100")).1 !! stream run7
  = files (disk 50 "100") !! stream run7.
Proof.
  pose proof (write_exe_frame run7 (disk 50 "100")) as (H1 & H2).
  split; [exact H1|].
  apply H2. vm_compute. discriminate.
Defined.

(** X9. Writing the script again changes nothing on disk: after a second
    write_exe the files are those after the first (the file is opened with
    'w', so the old script is replaced, not extended). *)
Theorem write_exe_twice (self : Indexer.t) (st : State) :
  files (write_exe self (write_exe self st).1).1 = files (write_exe self st).1.
Proof.
  destruct (Z.eq_dec (rank self) 0) as [Hrank|Hrank].
  - rewrite !(run_write_exe_rank0 self _ Hrank). cbn [fst files stored printed].
    apply insert_insert_eq.
  - rewrite !(run_write_exe_other self _ Hrank). reflexivity.
Qed.

Lemma command_contains_no_revalidate (self : Indexer.t) :
  contains "--no-revalidate" (command self)
  = no_revalidate self || existsb (contains "--no-revalidate") (interpolated self).
Proof.
  unfold interpolated, command.
  destruct (no_revalidate self) eqn:Hflag.
  - cbn [orb].
    destruct (cell self), (multi self), (profile self);
      first [ apply contains_app_r; reflexivity
            | apply contains_app_l, contains_app_r; reflexivity
            | apply contains_app_l, contains_app_l, contains_app_r; reflexivity ].
  - cbn [orb].
    destruct (cell self), (multi self), (profile self);
      rewrite ?append_assoc; rewrite ?append_cons, ?append_nil_l;
      scan_text; cbn [existsb app];
      rewrite ?orb_false_r; reflexivity.
Qed.

Lemma command_contains_profile (self : Indexer.t) :
  contains "--profile" (command self)
  = profile self || existsb (contains "--profile") (interpolated self).
Proof.
  unfold interpolated, command.
  destruct (profile self) eqn:Hflag.
  - cbn [orb]. apply contains_app_r. reflexivity.
  - cbn [orb].
    destruct (cell self), (no_revalidate self), (multi self);
      rewrite ?append_assoc; rewrite ?append_cons, ?append_nil_l;
      scan_text; cbn [existsb app];
      rewrite ?orb_false_r; reflexivity.
Qed.

(** X10. The other two switches behave like --multi: the command contains
    "--no-revalidate" exactly when no_revalidate is set or a copied value
    contains that text, and "--profile" exactly when profile is set or a
    copied value contains it. *)
Theorem other_flags_in_command (self : Indexer.t) :
  contains "--no-revalidate" (command self)
    = no_revalidate self || existsb (contains "--no-revalidate") (interpolated self) /\
  contains "--profile" (command self)
    = profile self || existsb (contains "--profile") (interpolated self).
Proof.
  split; [apply command_contains_no_revalidate | apply command_contains_profile].
Qed.

Lemma count_char_append (c : ascii) (a b : string) :
  count_char c (a +:+ b) = (count_char c a + count_char c b)%nat.
Proof.
  induction a as [|d a IH]; [reflexivity|].
  rewrite append_cons. cbn [count_char]. rewrite IH. lia.
Qed.

Lemma count_char_one_line (s : string) :
  one_line s = true -> count_char "010" s = O.
Proof.
  induction s as [|c s IH]; [reflexivity|]. cbn [one_line count_char].
  intros [Hc Hs]%andb_prop. apply negb_true_iff in Hc. rewrite Hc, (IH Hs). reflexivity.
Qed.

(** A text that ends with a line break has as many lines as line breaks. *)
Lemma length_readlines_closed (a : string) :
  length (readlines (a +:+ nl)) = S (count_char "010" a).
Proof.
  induction a as [|c a IH]; [reflexivity|].
  rewrite append_cons. cbn [readlines count_char].
  destruct (Ascii.eqb c "010").
  - cbn [length]. rewrite IH. reflexivity.
  - destruct (readlines (a +:+ nl)) as [|h t]; [discriminate IH|].
    cbn [length] in *. lia.
Qed.

Lemma line_breaks_command (self : Indexer.t) :
  count_char "010" (command self) = line_breaks (interpolated self).
Proof.
  unfold command, interpolated, line_breaks.
  destruct (cell self), (no_revalidate self), (multi self), (profile self);
    rewrite !count_char_append; cbn [foldr app count_char Ascii.eqb Bool.eqb];
    rewrite ?count_char_append; cbn [count_char Ascii.eqb Bool.eqb]; lia.
Qed.

Lemma line_breaks_command_report (self : Indexer.t) :
  count_char "010" (command_report self) = line_breaks (report_values self).
Proof.
  unfold command_report, report_values, line_breaks.
  assert (Hrun : count_char "010" (str_int (run self)) = O)
    by (apply count_char_one_line, one_line_pretty_Z).
  case_bool_decide as Htc.
  - rewrite Htc. cbn [negb str_opt].
    rewrite !count_char_append, Hrun; cbn [foldr count_char Ascii.eqb Bool.eqb]; lia.
  - cbn [negb].
    rewrite !count_char_append, Hrun; cbn [foldr count_char Ascii.eqb Bool.eqb]; lia.
Qed.

(** X11. The script has three lines plus one for every line break in a
    value that write_exe copies into the two commands; so it has exactly
    three lines if and only if none of those values contains a line break. *)
Theorem script_line_count (self : Indexer.t) :
  length (readlines (script_text self))
  = (3 + line_breaks (interpolated self) + line_breaks (report_values self))%nat.
Proof.
  unfold script_text.
  rewrite <- !append_assoc, length_readlines_closed.
  rewrite !count_char_append, line_breaks_command, line_breaks_command_report.
  cbn [nl count_char Ascii.eqb Bool.eqb]. lia.
Qed.

End WriteExeMore.

(* ===================================================================== *)
(** * More on report *)
(* ===================================================================== *)

Section ReportMore.
Import Py Os Indexer Spec Examples More.

Lemma run_report_other w self update_url st :
  rank self <> 0 -> report w self update_url st = (st, inr tt).
Proof.
  intros Hrank. apply Z.eqb_neq in Hrank. unfold report. rewrite Hrank. reflexivity.
Qed.

(** The files after report, from the two counts alone. *)
Lemma report_files w self update_url st :
  rank self = 0 ->
  files (report w self update_url st).1 =
  match hits_total (files st) self with
  | inl _ => files st
  | inr n_total =>
      <[indexing_summary self :=
          summary_text (indexed_count (files st) self) n_total]> (files st)
  end.
Proof.
  intros Hrank. rewrite (run_report_rank0 w self update_url st Hrank). cbn zeta.
  destruct (hits_total (files st) self) as [e|n_total]; [reflexivity|].
  unfold summary_text.
  destruct (true_div _ n_total) as [e|rate]; [reflexivity|].
  match goal with |- context [post_to_elog ?a ?b ?c ?d ?s] =>
    destruct (post_to_elog a b c d s) as [st' r] eqn:Hrun end.
  apply post_to_elog_cases in Hrun as [Hfiles _]. exact Hfiles.
Qed.

Lemma grep_stdout_insert_ne (fs : gmap string string) (p v needle path : string) :
  p <> path -> grep_stdout (<[p := v]> fs) needle path = grep_stdout fs needle path.
Proof. intros Hne. unfold grep_stdout. rewrite lookup_insert_ne by exact Hne. reflexivity. Qed.

Lemma constructed_stream_distinct (w : World) (self : Indexer.t) :
  constructed w self -> indexing_summary self <> stream self.
Proof.
  intros (exp0 & run0 & det & tag0 & dir & geom0 & cell0 & rad0 & meth & tol & tc
          & nr & mu & pr & Hinit).
  destruct (init_inv _ _ _ _ _ _ _ _ _ _ _ _ _ _ _ _ Hinit)
    as (py & np & n & _ & _ & _ & _ & _ & _ & _ & _ & _ & _ & _ & _ & _ & _
        & _ & _ & _ & _ & Hstream & _ & Hidx & _).
  rewrite Hstream, Hidx. unfold rdir.
  rewrite !append_assoc, !append_cons, !append_nil_l.
  rewrite !os_path_join_relative by discriminate.
  intros H. apply under_inj in H. injection H as H.
  apply append_inj_l in H. discriminate H.
Qed.

(** X12. When the peakfinding summary is missing, or has no line with
    "Number of hits found", report raises IndexError after printing the
    path: no file is written and nothing is posted. *)
Theorem report_without_hits_line w self update_url st :
  rank self = 0 ->
  match files st !! peakfinding_summary self with
  | None => True
  | Some text => matching_lines "Number of hits found" text = []
  end ->
  report w self update_url st
  = (printed (peakfinding_summary self) st, inl IndexError).
Proof.
  intros Hrank Hmissing.
  rewrite (run_report_rank0 w self update_url st Hrank). cbn zeta.
  assert (Hout : grep_stdout (files st) "Number of hits found"
                   (peakfinding_summary self) = EmptyString).
  { unfold grep_stdout. destruct (files st !! peakfinding_summary self) as [text|].
    - unfold matching_lines in Hmissing. rewrite Hmissing. reflexivity.
    - reflexivity. }
  unfold hits_total. rewrite Hout. reflexivity.
Qed.

Lemma report_without_hits_line_witness :
  report world run7 None empty_disk
  = (printed (peakfinding_summary run7) empty_disk, inl IndexError).
Proof.
  apply (report_without_hits_line world run7 None empty_disk).
  - reflexivity.
  - vm_compute. exact I.
Defined.

Lemma parse_total_raises (output : string) (e : exn) :
  parse_total output = inl e -> e = IndexError \/ e = ValueError.
Proof.
  unfold parse_total, index.
  destruct (nth_error (split ":" output) 1) as [after|];
    cbv beta iota delta [mbind result_bind];
    [|intros [= <-]; left; reflexivity].
  destruct (nth_error (split "010" after) 0) as [first|];
    cbv beta iota;
    [|intros [= <-]; left; reflexivity].
  intros H. right. exact (int_raises_ValueError _ _ H).
Qed.

(** X13. Whenever the total cannot be parsed, report raises the parser's
    exception (an IndexError or a ValueError) before it writes or posts
    anything; only the path of the summary has been printed. *)
Theorem report_parse_failure w self update_url st e :
  rank self = 0 ->
  hits_total (files st) self = inl e ->
  report w self update_url st = (printed (peakfinding_summary self) st, inl e) /\
  (e = IndexError \/ e = ValueError).
Proof.
  intros Hrank Htotal. split.
  - rewrite (run_report_rank0 w self update_url st Hrank). cbn zeta.
    rewrite Htotal. reflexivity.
  - exact (parse_total_raises _ _ Htotal).
Qed.

Lemma report_parse_failure_witness :
  report world run7 None (disk 3 "many")
  = (printed (peakfinding_summary run7) (disk 3 "many"), inl ValueError).
Proof.
  refine (proj1 (report_parse_failure world run7 None (disk 3 "many") ValueError _ _)).
  - reflexivity.
  - vm_compute. reflexivity.
Defined.

(** X14. A missing stream file is not an error: grep prints nothing, the
    indexed count is 0, and with a positive total the summary reads
    "Number of indexed events: 0" and "Fractional indexing rate rate: 0.00". *)
Theorem report_without_stream w self update_url st n_total :
  rank self = 0 ->
  files st !! stream self = None ->
  hits_total (files st) self = inr n_total ->
  0 < n_total ->
  indexed_count (files st) self = 0 /\
  files (report w self update_url st).1 !! indexing_summary self
  = Some ("Number of indexed events: 0" +:+ nl
          +:+ "Fractional indexing rate rate: 0.00" +:+ nl).
Proof.
  intros Hrank Hstream Htotal Hpos.
  assert (Hcount : indexed_count (files st) self = 0).
  { unfold indexed_count, grep_stdout. rewrite Hstream. reflexivity. }
  split; [exact Hcount|].
  rewrite (report_files w self update_url st Hrank), Htotal, Hcount.
  rewrite lookup_insert_eq. f_equal.
  destruct n_total as [|p|p]; [lia | | lia]. reflexivity.
Qed.

Lemma report_without_stream_witness :
  files (report world run7 None
           (fresh {["/d/r0007/peakfinding.summary" := peakfinding_text "100"]})).1
    !! indexing_summary run7
  = Some ("Number of indexed events: 0" +:+ nl
          +:+ "Fractional indexing rate rate: 0.00" +:+ nl).
Proof.
  refine (proj2 (report_without_stream world run7 None
                   (fresh {["/d/r0007/peakfinding.summary" := peakfinding_text "100"]})
                   100 _ _ _ _)).
  - reflexivity.
  - vm_compute. reflexivity.
  - vm_compute. reflexivity.
  - lia.
Defined.

Lemma report_files_elsewhere w self update_url st path :
  path <> indexing_summary self ->
  files (report w self update_url st).1 !! path = files st !! path.
Proof.
  intros Hpath. destruct (Z.eq_dec (rank self) 0) as [Hrank|Hrank].
  - rewrite (report_files w self update_url st Hrank).
    destruct (hits_total (files st) self); [reflexivity|].
    apply lookup_insert_ne. congruence.
  - rewrite (run_report_other w self update_url st Hrank). reflexivity.
Qed.

(** X15. report changes no file but the indexing summary, whatever its
    outcome; for a constructed Indexer this means the stream and the
    peakfinding summary it reads are left as they were. *)
Theorem report_frame w self update_url st :
  (forall path, path <> indexing_summary self ->
                files (report w self update_url st).1 !! path = files st !! path) /\
  (constructed w self ->
   files (report w self update_url st).1 !! stream self = files st !! stream self /\
   files (report w self update_url st).1 !! peakfinding_summary self
   = files st !! peakfinding_summary self).
Proof.
  assert (Hframe : forall path, path <> indexing_summary self ->
            files (report w self update_url st).1 !! path = files st !! path)
    by (intros path; apply report_files_elsewhere).
  split; [exact Hframe|].
  intros Hself. split; apply Hframe.
  - intros H. exact (constructed_stream_distinct w self Hself (eq_sym H)).
  - intros H. exact (constructed_paths_distinct w self Hself (eq_sym H)).
Qed.

Lemma report_frame_witness :
  files (report world run7 None (disk 50 "100")).1 !! stream run7
  = files (disk 50 "100") !! stream run7 /\
  files (report world run7 None (disk 50 "100")).1 !! peakfinding_summary run7
  = files (disk 50 "100") !! peakfinding_summary run7.
Proof.
  exact (proj2 (report_frame world run7 None (disk 50 "100")) run7_constructed).
Defined.

(** X16. Without JID_UPDATE_COUNTERS in the environment, a report that gets
    through its parsing writes the two-line summary, posts nothing and
    returns normally. *)
Theorem report_without_url w self update_url st n_total rate :
  rank self = 0 ->
  environ w !! "JID_UPDATE_COUNTERS" = None ->
  hits_total (files st) self = inr n_total ->
  true_div (indexed_count (files st) self) n_total = inr rate ->
  report w self update_url st =
  (stored (<[indexing_summary self :=
               summary_line1 (indexed_count (files st) self) +:+ nl
               +:+ summary_line2 rate +:+ nl]> (files st))
     (printed (peakfinding_summary self) st), inr tt).
Proof.
  intros Hrank Hurl Htotal Hrate.
  rewrite (run_report_rank0 w self update_url st Hrank). cbn zeta.
  rewrite Htotal, Hrate. unfold post_to_elog. rewrite Hurl. reflexivity.
Qed.

Lemma report_without_url_witness :
  (report world_no_url run7 None (disk 50 "100")).2 = inr tt /\
  posts (report world_no_url run7 None (disk 50 "100")).1 = [].
Proof.
  rewrite (report_without_url world_no_url run7 None (disk 50 "100") 100
             (S754_finite false 4503599627370496 (-53)) eq_refl eq_refl
             ltac:(vm_compute; reflexivity) ltac:(vm_compute; reflexivity)).
  split; reflexivity.
Defined.

(** X17. Running report again reproduces the files: for a constructed
    Indexer the files after a second report (with any update_url argument)
    are those after the first. *)
Theorem report_twice w self url1 url2 st :
  constructed w self ->
  files (report w self url2 (report w self url1 st).1).1
  = files (report w self url1 st).1.
Proof.
  intros Hself. destruct (Z.eq_dec (rank self) 0) as [Hrank|Hrank].
  2:{ rewrite !(run_report_other w self _ _ Hrank). reflexivity. }
  rewrite (report_files w self url2 _ Hrank).
  rewrite (report_files w self url1 st Hrank).
  destruct (hits_total (files st) self) as [e|n_total] eqn:Htotal.
  - rewrite Htotal. reflexivity.
  - unfold hits_total, indexed_count.
    rewrite !grep_stdout_insert_ne
      by first [ exact (constructed_paths_distinct w self Hself)
               | exact (constructed_stream_distinct w self Hself) ].
    fold (hits_total (files st) self). rewrite Htotal.
    fold (indexed_count (files st) self). apply insert_insert_eq.
Qed.

Lemma report_twice_witness :
  files (report world run7 (Some "http://other")
           (report world run7 None (disk 50 "100")).1).1
  = files (report world run7 None (disk 50 "100")).1.
Proof.
  exact (report_twice world run7 None (Some "http://other") (disk 50 "100")
           run7_constructed).
Defined.

(** The body of a request that the elog block issued. *)
Lemma post_to_elog_payload w self n_indexed n_total st st' r url payload :
  post_to_elog w self n_indexed n_total st = (st', r) ->
  posts st' = posts st ++ [(url, payload)] ->
  exists k0 v0 k1 v1 k2 v2 rate,
    true_div n_indexed n_total = inr rate /\
    payload = elog_payload k0 v0 k1 v1 k2 v2 n_indexed rate.
Proof.
  unfold post_to_elog.
  assert (Hno : forall (s : State) (res : result unit),
            (s, res) = (st', r) -> posts s = posts st ->
            posts st' = posts st ++ [(url, payload)] -> False).
  { intros s res [= <- <-] Hs Hp. rewrite Hs in Hp. symmetry in Hp.
    exact (snoc_neq _ _ Hp). }
  destruct (environ w !! "JID_UPDATE_COUNTERS") as [u|].
  2:{ intros H Hp. destruct (Hno _ _ H eq_refl Hp). }
  rewrite run_bind. unfold read_lines.
  destruct (files st !! peakfinding_summary self) as [text|].
  2:{ intros H Hp. destruct (Hno _ _ H eq_refl Hp). }
  rewrite run_bind, run_comprehension.
  destruct (traverse _ _) as [e|pf_keys].
  { intros H Hp. destruct (Hno _ _ H eq_refl Hp). }
  rewrite run_bind, run_comprehension.
  destruct (traverse _ _) as [e|pf_vals].
  { intros H Hp. destruct (Hno _ _ H eq_refl Hp). }
  unfold try_except. rewrite !run_bind. unfold lift.
  destruct (index pf_keys 0) as [e|k0].
  { intros H Hp. destruct (Hno _ _ H eq_refl Hp). }
  rewrite run_bind. destruct (index pf_vals 0) as [e|v0].
  { intros H Hp. destruct (Hno _ _ H eq_refl Hp). }
  rewrite run_bind. destruct (index pf_keys 1) as [e|k1].
  { intros H Hp. destruct (Hno _ _ H eq_refl Hp). }
  rewrite run_bind. destruct (index pf_vals 1) as [e|v1].
  { intros H Hp. destruct (Hno _ _ H eq_refl Hp). }
  rewrite run_bind. destruct (index pf_keys 2) as [e|k2].
  { intros H Hp. destruct (Hno _ _ H eq_refl Hp). }
  rewrite run_bind. destruct (index pf_vals 2) as [e|v2].
  { intros H Hp. destruct (Hno _ _ H eq_refl Hp). }
  rewrite run_bind. destruct (true_div n_indexed n_total) as [e|rate].
  { intros H Hp. destruct (Hno _ _ H eq_refl Hp). }
  unfold requests_post.
  intros H Hp. exists k0, v0, k1, v1, k2, v2, rate. split; [reflexivity|].
  destruct (post_raises w u _); injection H as <- _;
    cbn [posts posted printed] in Hp;
    apply app_inj_tail in Hp as [_ [= _ <-]]; reflexivity.
Qed.

(** X18. The elog gets the figures of the summary file: whenever report
    issues a request, its fourth and fifth entries carry the indexed count
    and the rate in the very text of the two lines that the indexing
    summary then holds. *)
Theorem posted_figures_match_summary w self update_url st st' r url payload :
  rank self = 0 ->
  report w self update_url st = (st', r) ->
  posts st' = posts st ++ [(url, payload)] ->
  exists e0 e1 e2 count rate,
    payload = [ e0; e1; e2; Entry "Number of indexed events" count;
                Entry "Fractional indexing rate" rate ] /\
    files st' !! indexing_summary self
    = Some ("Number of indexed events: " +:+ count +:+ nl
            +:+ "Fractional indexing rate rate: " +:+ rate +:+ nl).
Proof.
  intros Hrank Hrun Hposts.
  rewrite (run_report_rank0 w self update_url st Hrank) in Hrun. cbn zeta in Hrun.
  destruct (hits_total (files st) self) as [e1|n_total].
  { injection Hrun as <- <-. cbn in Hposts. symmetry in Hposts.
    destruct (snoc_neq _ _ Hposts). }
  destruct (true_div _ n_total) as [e1|rate] eqn:Hrate.
  { injection Hrun as <- <-. cbn in Hposts. symmetry in Hposts.
    destruct (snoc_neq _ _ Hposts). }
  pose proof (post_to_elog_cases _ _ _ _ _ _ _ Hrun) as [Hfiles _].
  cbn [files stored printed] in Hfiles.
  destruct (post_to_elog_payload _ _ _ _ _ _ _ url payload Hrun Hposts)
    as (k0 & v0 & k1 & v1 & k2 & v2 & rate' & Hrate' & ->).
  rewrite Hrate in Hrate'. injection Hrate' as <-.
  exists (Entry k0 v0), (Entry k1 v1), (Entry k2 v2),
         (str_int (indexed_count (files st) self)), (format_2f rate).
  split; [reflexivity|].
  rewrite Hfiles, lookup_insert_eq. unfold summary_line1, summary_line2.
  rewrite !append_assoc. reflexivity.
Qed.

Lemma posted_figures_match_summary_witness :
  let out := report world run7 None (disk 50 "100") in
  exists e0 e1 e2 count rate,
    [ Entry "Number of events processed" "200"; Entry "Number of hits found" "100";
      Entry "Fractional hit rate" "0.50"; Entry "Number of indexed events" "50";
      Entry "Fractional indexing rate" "0.50" ]
    = [ e0; e1; e2; Entry "Number of indexed events" count;
        Entry "Fractional indexing rate" rate ] /\
    files out.1 !! indexing_summary run7
    = Some ("Number of indexed events: " +:+ count +:+ nl
            +:+ "Fractional indexing rate rate: " +:+ rate +:+ nl).
Proof.
  intros out.
  apply (posted_figures_match_summary world run7 None (disk 50 "100") out.1 out.2
           "http://elog/counters").
  - reflexivity.
  - apply surjective_pairing.
  - vm_compute. reflexivity.
Defined.

End ReportMore.

(* ===================================================================== *)
(** * What the indexed count counts *)
(* ===================================================================== *)

Section Counting.
Import Py Os Indexer Spec Examples More.

Lemma split_line (a rest : string) :
  one_line a = true ->
  split "010" (a +:+ String "010" rest) = a :: split "010" rest.
Proof.
  induction a as [|c a IH]; intros Ha.
  - reflexivity.
  - cbn [one_line] in Ha. apply andb_prop in Ha as [Hc Ha].
    apply negb_true_iff in Hc.
    rewrite append_cons. cbn [split]. rewrite Hc, (IH Ha). reflexivity.
Qed.

Lemma split_pieces_one_line (s : string) : Forall (fun l => one_line l = true) (split "010" s).
Proof.
  induction s as [|c s IH]; [repeat constructor|].
  cbn [split]. destruct (Ascii.eqb c "010") eqn:Hc.
  - constructor; [reflexivity | exact IH].
  - destruct (split "010" s) as [|h t]; [repeat constructor; cbn; rewrite Hc; reflexivity|].
    inversion IH as [|? ? Hh Ht]; subst.
    constructor; [cbn [one_line]; rewrite Hc, Hh; reflexivity | exact Ht].
Qed.

Lemma split_pieces_no_char (c : ascii) (s : string) :
  has_char c s = false -> Forall (fun l => has_char c l = false) (split "010" s).
Proof.
  induction s as [|d s IH]; [repeat constructor|].
  cbn [has_char split]. intros [Hd Hs]%orb_false_elim. specialize (IH Hs).
  destruct (Ascii.eqb d "010").
  - constructor; [reflexivity | exact IH].
  - destruct (split "010" s) as [|h t]; [repeat constructor; cbn; rewrite Hd; reflexivity|].
    inversion IH as [|? ? Hh Ht]; subst.
    constructor; [cbn [has_char]; rewrite Hd, Hh; reflexivity | exact Ht].
Qed.

Lemma Forall_removelast {A : Type} (P : A -> Prop) (l : list A) :
  Forall P l -> Forall P (removelast l).
Proof.
  induction 1 as [|x l Hx Hl IH]; [constructor|].
  cbn [removelast]. destruct l; [constructor|]. constructor; assumption.
Qed.

Lemma file_lines_Forall (P : string -> Prop) (text : string) :
  Forall P (split "010" text) -> Forall P (file_lines text).
Proof.
  intros H. unfold file_lines. destruct (endswith text "010").
  - apply Forall_removelast, H.
  - destruct (String.length text =? 0)%nat; [constructor | exact H].
Qed.

Lemma Forall_filter_list {A : Type} (P : A -> Prop) (f : A -> bool) (l : list A) :
  Forall P l -> Forall P (List.filter f l).
Proof.
  induction 1 as [|x l Hx Hl IH]; [constructor|].
  cbn [List.filter]. destruct (f x); [constructor|]; assumption.
Qed.

Lemma split_unlines (l : list string) :
  Forall (fun s => one_line s = true) l ->
  split "010" (unlines l) = l ++ [EmptyString].
Proof.
  induction 1 as [|a l Ha Hl IH]; [reflexivity|].
  cbn [unlines]. rewrite (split_line a _ Ha), IH. reflexivity.
Qed.

Lemma unlines_no_char (c : ascii) (l : list string) :
  Ascii.eqb "010" c = false ->
  Forall (fun s => has_char c s = false) l -> has_char c (unlines l) = false.
Proof.
  intros Hc. induction 1 as [|a l Ha Hl IH]; [reflexivity|].
  cbn [unlines].
  assert (Happ : forall x y, has_char c (x +:+ y) = has_char c x || has_char c y).
  { intros x y. induction x as [|d x IHx]; [reflexivity|].
    rewrite append_cons. cbn [has_char]. rewrite IHx, orb_assoc. reflexivity. }
  rewrite Happ, Ha. cbn [has_char orb]. rewrite Hc, IH. reflexivity.
Qed.

Lemma universal_newlines_id (s : string) :
  has_char "013" s = false -> universal_newlines s = s.
Proof.
  induction s as [|c s IH]; [reflexivity|].
  cbn [has_char universal_newlines]. intros [Hc Hs]%orb_false_elim.
  rewrite Hc, (IH Hs). reflexivity.
Qed.

(** X19. The indexed count is the number of lines of the stream that
    contain "Cell parameters", provided the stream has no carriage return
    (text mode would turn one into a further line break). *)
Theorem indexed_count_counts_lines (fs : gmap string string) (self : Indexer.t)
    (text : string) :
  fs !! stream self = Some text ->
  has_char "013" text = false ->
  indexed_count fs self
  = Z.of_nat (length (matching_lines "Cell parameters" text)).
Proof.
  intros Htext Hcr. unfold indexed_count, grep_stdout, matching_lines. rewrite Htext.
  set (hits := List.filter (fun l => contains "Cell parameters" l) (file_lines text)).
  assert (Hone : Forall (fun s => one_line s = true) hits)
    by (apply Forall_filter_list, file_lines_Forall, split_pieces_one_line).
  assert (Hnocr : Forall (fun s => has_char "013" s = false) hits)
    by (apply Forall_filter_list, file_lines_Forall, split_pieces_no_char, Hcr).
  rewrite universal_newlines_id by (apply unlines_no_char; [reflexivity | exact Hnocr]).
  rewrite (split_unlines hits Hone), removelast_last. reflexivity.
Qed.

Lemma indexed_count_counts_lines_witness :
  indexed_count (files (disk 50 "100")) run7
  = Z.of_nat (length (matching_lines "Cell parameters" (chunks 50))).
Proof.
  apply (indexed_count_counts_lines (files (disk 50 "100")) run7 (chunks 50)).
  - vm_compute. reflexivity.
  - vm_compute. reflexivity.
Defined.

(** With a carriage return inside a matching line the count is off by one. *)
Example carriage_return_counts_twice :
  indexed_count {["/d/r0007_foo.stream" := "a" +:+ String "013" "Cell parameters" +:+ nl]}
    run7 = 2.
Proof. vm_compute. reflexivity. Qed.

End Counting.

(* ===================================================================== *)
(** * The command line *)
(* ===================================================================== *)

Section MainMore.
Import Py Os Indexer Spec Examples More Cli.

Lemma parse_input_inv (argv : Argv.t) (params : Params.t) :
  parse_input argv = inr params ->
  int (Argv.run argv) = inr (Params.run params) /\
  Params.report params = Argv.report argv /\
  Params.update_url params = Argv.update_url argv /\
  Params.geom params = Argv.geom argv /\
  Params.no_revalidate params = negb (Argv.no_revalidate argv) /\
  Params.multi params = negb (Argv.multi argv) /\
  Params.profile params = negb (Argv.profile argv).
Proof.
  unfold parse_input. destruct (int (Argv.run argv)) as [e|r]; [discriminate|].
  intros [= <-]. repeat split.
Qed.

Lemma indexer_obj_inv (w : World) (params : Params.t) (self : Indexer.t) :
  indexer_obj w params = inr self ->
  geom self = Params.geom params /\
  no_revalidate self = Params.no_revalidate params /\
  multi self = Params.multi params /\
  profile self = Params.profile params.
Proof.
  unfold indexer_obj. intros Hinit.
  destruct (init_inv _ _ _ _ _ _ _ _ _ _ _ _ _ _ _ _ Hinit)
    as (py & np & n & _ & _ & _ & _ & _ & _ & _ & _ & _ & Hgeom & _ & _ & _ & _
        & Hnr & Hmu & Hpr & _).
  repeat split; assumption.
Qed.

Lemma run_main (w : World) (argv : Argv.t) (params : Params.t) (self : Indexer.t)
    (st : State) :
  parse_input argv = inr params ->
  indexer_obj w params = inr self ->
  main w argv st =
  if Argv.report argv then report w self (Argv.update_url argv) st
  else write_exe self st.
Proof.
  intros Hparse Hobj.
  destruct (parse_input_inv _ _ Hparse) as (_ & Hrep & Hurl & _).
  unfold main. rewrite run_bind. unfold lift at 1. rewrite Hparse.
  rewrite run_bind. unfold lift. rewrite Hobj, Hrep, Hurl.
  destruct (Argv.report argv); reflexivity.
Qed.

(** X20. The entry point fails before it touches a file or the elog: a
    run number that is not an integer ends in SystemExit, and an exception
    of the constructor (a missing WHICHPYTHON or NCORES, a bad NCORES) is
    passed on; in both cases every file is as it was and no request has
    gone out. *)
Theorem main_fails_early (w : World) (argv : Argv.t) (st : State) :
  (forall e, int (Argv.run argv) = inl e ->
             (main w argv st).2 = inl (OtherError "SystemExit") /\
             files (main w argv st).1 = files st /\
             posts (main w argv st).1 = posts st) /\
  (forall params e, parse_input argv = inr params ->
                    indexer_obj w params = inl e ->
                    (main w argv st).2 = inl e /\
                    files (main w argv st).1 = files st /\
                    posts (main w argv st).1 = posts st).
Proof.
  split.
  - intros e He. unfold main, parse_input. rewrite run_bind. unfold lift.
    rewrite He. repeat split.
  - intros params e Hparse Hobj. unfold main. rewrite run_bind. unfold lift at 1.
    rewrite Hparse, run_bind. unfold lift. rewrite Hobj. repeat split.
Qed.

Lemma main_fails_early_witness :
  ((main world argv_bad_run empty_disk).2 = inl (OtherError "SystemExit") /\
   files (main world argv_bad_run empty_disk).1 = files empty_disk /\
   posts (main world argv_bad_run empty_disk).1 = posts empty_disk) /\
  ((main world_no_env argv_index empty_disk).2 = inl (KeyError "WHICHPYTHON") /\
   files (main world_no_env argv_index empty_disk).1 = files empty_disk /\
   posts (main world_no_env argv_index empty_disk).1 = posts empty_disk).
Proof.
  split.
  - exact (proj1 (main_fails_early world argv_bad_run empty_disk) ValueError eq_refl).
  - refine (proj2 (main_fails_early world_no_env argv_index empty_disk) _
              (KeyError "WHICHPYTHON") _ _).
    + vm_compute. reflexivity.
    + vm_compute. reflexivity.
Defined.

(** X21. One call does one job. Without --report the entry point does not
    post and changes no file but tmp_exe. With --report it changes no file
    but the indexing summary. *)
Theorem main_modes (w : World) (argv : Argv.t) (params : Params.t)
    (self : Indexer.t) (st : State) :
  parse_input argv = inr params ->
  indexer_obj w params = inr self ->
  (Argv.report argv = false ->
   posts (main w argv st).1 = posts st /\
   forall path, path <> tmp_exe self ->
                files (main w argv st).1 !! path = files st !! path) /\
  (Argv.report argv = true ->
   forall path, path <> indexing_summary self ->
                files (main w argv st).1 !! path = files st !! path).
Proof.
  intros Hparse Hobj. rewrite (run_main w argv params self st Hparse Hobj).
  split; intros ->.
  - apply write_exe_effects.
  - intros path. apply report_files_elsewhere.
Qed.

Lemma main_modes_witness :
  posts (main world argv_index empty_disk).1 = posts empty_disk /\
  forall path, path <> tmp_exe run7 ->
               files (main world argv_index empty_disk).1 !! path
               = files empty_disk !! path.
Proof.
  refine (proj1 (main_modes world argv_index _ run7 empty_disk _ _) eq_refl).
  - vm_compute. reflexivity.
  - vm_compute. reflexivity.
Defined.

(** X22. The three switches are store_false options: giving --multi,
    --no_revalidate or --profile on the command line turns the attribute
    off. So the command carries " --multi" when --multi is not given, and
    when it is given the text "--multi" is in the command only if a copied
    value contains it; the same holds for the other two. *)
Theorem switches_are_inverted (w : World) (argv : Argv.t) (params : Params.t)
    (self : Indexer.t) :
  parse_input argv = inr params ->
  indexer_obj w params = inr self ->
  (multi self = negb (Argv.multi argv) /\
   contains "--multi" (command self)
   = negb (Argv.multi argv) || existsb (contains "--multi") (interpolated self)) /\
  (no_revalidate self = negb (Argv.no_revalidate argv) /\
   contains "--no-revalidate" (command self)
   = negb (Argv.no_revalidate argv)
     || existsb (contains "--no-revalidate") (interpolated self)) /\
  (profile self = negb (Argv.profile argv) /\
   contains "--profile" (command self)
   = negb (Argv.profile argv) || existsb (contains "--profile") (interpolated self)).
Proof.
  intros Hparse Hobj.
  destruct (parse_input_inv _ _ Hparse) as (_ & _ & _ & _ & Hnr & Hmu & Hpr).
  destruct (indexer_obj_inv _ _ _ Hobj) as (_ & Hnr' & Hmu' & Hpr').
  rewrite Hnr in Hnr'. rewrite Hmu in Hmu'. rewrite Hpr in Hpr'.
  repeat split; try assumption.
  - rewrite command_contains_multi, Hmu'. reflexivity.
  - rewrite command_contains_no_revalidate, Hnr'. reflexivity.
  - rewrite command_contains_profile, Hpr'. reflexivity.
Qed.

Lemma switches_are_inverted_witness :
  exists self,
    indexer_obj world
      {| Params.exp := "mfxp19619"; Params.run := 7; Params.det_type := "epix10k2M";
         Params.tag := "foo"; Params.tag_cxi := None; Params.taskdir := "/d";
         Params.report := false; Params.update_url := None;
         Params.geom := Some "/d/geom/r0007.geom"; Params.cell := None;
         Params.int_rad := "4,5,6"; Params.methods := "xgandalf,mosflm,xds";
         Params.tolerance := "5,5,5,1.5"; Params.no_revalidate := true;
         Params.multi := false; Params.profile := true |} = inr self /\
    multi self = false /\
    contains "--multi" (command self) = false.
Proof.
  eexists. split; [vm_compute; reflexivity|].
  match goal with |- multi ?s = _ /\ _ =>
    pose proof (proj1 (switches_are_inverted world argv_index_multi _ s
                         ltac:(vm_compute; reflexivity)
                         ltac:(vm_compute; reflexivity))) as [H1 H2]
  end.
  split; [exact H1|]. rewrite H2. vm_compute. reflexivity.
Defined.

(** X23. Leaving out --geom is not caught: the attribute is None and the
    command written into the script reads "-g None". *)
Theorem missing_geom_is_written (w : World) (argv : Argv.t) (params : Params.t)
    (self : Indexer.t) :
  parse_input argv = inr params ->
  indexer_obj w params = inr self ->
  Argv.geom argv = None ->
  contains " -g None --peaks=cxi" (command self) = true.
Proof.
  intros Hparse Hobj Hgeom.
  destruct (parse_input_inv _ _ Hparse) as (_ & _ & _ & Hg & _).
  destruct (indexer_obj_inv _ _ _ Hobj) as (Hg' & _).
  rewrite Hg, Hgeom in Hg'.
  assert (Hbase : contains " -g None --peaks=cxi"
            ("indexamajig -i " +:+ lst self +:+ " -o " +:+ stream self
             +:+ " -j " +:+ nproc self +:+ " -g " +:+ str_opt (geom self)
             +:+ " --peaks=cxi --int-rad=" +:+ rad self
             +:+ " --indexing=" +:+ methods self
             +:+ " --tolerance=" +:+ tolerance self) = true).
  { rewrite Hg'. do 6 apply contains_app_r.
    change (" -g " +:+ str_opt None +:+ " --peaks=cxi --int-rad=" +:+ rad self
            +:+ " --indexing=" +:+ methods self +:+ " --tolerance=" +:+ tolerance self)
      with (" -g None --peaks=cxi"
            +:+ (" --int-rad=" +:+ rad self +:+ " --indexing=" +:+ methods self
                 +:+ " --tolerance=" +:+ tolerance self)).
    apply contains_self. }
  unfold command.
  destruct (cell self), (no_revalidate self), (multi self), (profile self);
    first [ exact Hbase
          | exact (contains_app_l _ _ _ Hbase)
          | exact (contains_app_l _ _ _ (contains_app_l _ _ _ Hbase))
          | exact (contains_app_l _ _ _
                     (contains_app_l _ _ _ (contains_app_l _ _ _ Hbase)))
          | exact (contains_app_l _ _ _
                     (contains_app_l _ _ _
                        (contains_app_l _ _ _ (contains_app_l _ _ _ Hbase)))) ].
Qed.

Lemma missing_geom_is_written_witness :
  exists self,
    new world "mfxp19619" 7 "epix10k2M" "foo" "/d" None = inr self /\
    contains " -g None --peaks=cxi" (command self) = true.
Proof.
  eexists. split; [vm_compute; reflexivity|].
  refine (missing_geom_is_written world
            {| Argv.exp := "mfxp19619"; Argv.run := "7"; Argv.det_type := "epix10k2M";
               Argv.tag := "foo"; Argv.tag_cxi := None; Argv.taskdir := "/d";
               Argv.report := false; Argv.update_url := None;
               Argv.geom := None; Argv.cell := None;
               Argv.int_rad := Some "4,5,6"; Argv.methods := Some "mosflm";
               Argv.tolerance := Some "5,5,5,1.5";
               Argv.no_revalidate := false; Argv.multi := false;
               Argv.profile := false |} _ _ _ _ _).
  - vm_compute. reflexivity.
  - vm_compute. reflexivity.
  - reflexivity.
Defined.

End MainMore.

(* ===================================================================== *)
(** * The name of the DAG *)
(* ===================================================================== *)

Section DagMore.
Import Py Spec More Dag.

Lemma has_char_append (c : ascii) (a b : string) :
  has_char c (a +:+ b) = has_char c a || has_char c b.
Proof.
  induction a as [|d a IH]; [reflexivity|].
  rewrite append_cons. cbn [has_char]. rewrite IH, orb_assoc. reflexivity.
Qed.

Lemma rfind_lower (c : ascii) (s : string) : -1 <= rfind c s.
Proof.
  induction s as [|a s IH]; [reflexivity|]. cbn [rfind].
  destruct (Z.leb_spec 0 (rfind c s)); [lia|]. destruct (Ascii.eqb a c); lia.
Qed.

Lemma rfind_absent (c : ascii) (s : string) : has_char c s = false -> rfind c s = -1.
Proof.
  induction s as [|a s IH]; [reflexivity|]. cbn [has_char rfind].
  intros [Ha Hs]%orb_false_elim. rewrite (IH Hs), Ha. reflexivity.
Qed.

Lemma rfind_last (c : ascii) (a b : string) :
  has_char c b = false ->
  rfind c (a +:+ String c b) = Z.of_nat (String.length a).
Proof.
  intros Hb. induction a as [|d a IH].
  - rewrite append_nil_l. cbn [rfind]. rewrite (rfind_absent c b Hb), Ascii.eqb_refl.
    reflexivity.
  - rewrite append_cons. cbn [rfind String.length]. rewrite IH.
    destruct (Z.leb_spec 0 (Z.of_nat (String.length a))); lia.
Qed.

Lemma drop_append (a b : string) : drop (String.length a) (a +:+ b) = b.
Proof. induction a as [|d a IH]; [reflexivity|]. rewrite append_cons. exact IH. Qed.

Lemma take_append (a b : string) : take (String.length a) (a +:+ b) = a.
Proof.
  induction a as [|d a IH]; [reflexivity|].
  rewrite append_cons. cbn [String.length take]. rewrite IH. reflexivity.
Qed.

Lemma get_append (a : string) (c : ascii) (b : string) :
  String.get (String.length a) (a +:+ String c b) = Some c.
Proof. induction a as [|d a IH]; [reflexivity|]. rewrite append_cons. exact IH. Qed.

Lemma basename_join (dir name : string) :
  has_char "/" name = false -> basename (dir +:+ "/" +:+ name) = name.
Proof.
  intros Hname. unfold basename.
  pose proof (rfind_last "/" dir name Hname) as Hr.
  change (String "/" name) with ("/" +:+ name) in Hr. rewrite Hr.
  replace (Z.to_nat (Z.of_nat (String.length dir) + 1))
    with (String.length (dir +:+ "/")) by (rewrite length_append; cbn; lia).
  rewrite <- (append_assoc dir "/" name). apply drop_append.
Qed.

(** The loop of splitext finds a stem exactly when the characters before
    the last dot are not all dots. *)
Lemma has_stem_spec (s : string) :
  forall pre rest,
    has_stem (pre +:+ s +:+ rest) (String.length pre) (String.length s)
    = negb (all_chars (fun c => Ascii.eqb c ".") s).
Proof.
  induction s as [|c s IH]; intros pre rest; [reflexivity|].
  rewrite append_cons. cbn [String.length has_stem all_chars].
  rewrite get_append. destruct (Ascii.eqb c ".") eqn:Hc; [|reflexivity].
  cbn [andb].
  replace (S (String.length pre)) with (String.length (pre +:+ String c EmptyString))
    by (rewrite length_append; cbn; lia).
  rewrite <- (IH (pre +:+ String c EmptyString) rest).
  rewrite !append_assoc. reflexivity.
Qed.

Lemma splitext_stem (stem ext : string) :
  has_char "/" stem = false ->
  has_char "/" ext = false ->
  has_char "." ext = false ->
  all_chars (fun c => Ascii.eqb c ".") stem = false ->
  splitext (stem +:+ "." +:+ ext) = (stem, "." +:+ ext).
Proof.
  intros Hs He Hdot Hstem. unfold splitext.
  change ("." +:+ ext) with (String "." ext).
  rewrite (rfind_absent "/" (stem +:+ String "." ext))
    by (rewrite has_char_append, Hs; cbn [has_char Ascii.eqb Bool.eqb orb]; exact He).
  rewrite (rfind_last "." stem ext Hdot).
  change (Z.to_nat (-1 + 1)) with O.
  replace (Z.to_nat (Z.of_nat (String.length stem) - (-1 + 1)))
    with (String.length stem) by lia.
  rewrite Nat2Z.id.
  pose proof (has_stem_spec stem EmptyString (String "." ext)) as Hloop.
  rewrite append_nil_l in Hloop. cbn [String.length] in Hloop.
  rewrite Hloop, Hstem.
  destruct (Z.ltb_spec (-1) (Z.of_nat (String.length stem))); [|lia].
  cbn [andb negb]. rewrite take_append, drop_append. reflexivity.
Qed.

(** X24. The DAG is named after its file: for a file stem.ext in any
    directory, where the extension has no dot and the stem is not made of
    dots only, dag_name is the stem (so optimize_geometry.py declares the
    DAG "optimize_geometry", wherever it is installed). *)
Theorem dag_name_is_stem (dir stem ext : string) :
  has_char "/" stem = false ->
  has_char "/" ext = false ->
  has_char "." ext = false ->
  all_chars (fun c => Ascii.eqb c ".") stem = false ->
  dag_name (dir +:+ "/" +:+ stem +:+ "." +:+ ext) = stem /\
  dag_id (optimize_geometry (dir +:+ "/" +:+ stem +:+ "." +:+ ext)) = stem.
Proof.
  intros Hs He Hdot Hstem.
  assert (Hname : dag_name (dir +:+ "/" +:+ stem +:+ "." +:+ ext) = stem).
  { unfold dag_name. rewrite basename_join.
    - rewrite (splitext_stem stem ext Hs He Hdot Hstem). reflexivity.
    - rewrite !has_char_append, Hs, He. reflexivity. }
  split; [exact Hname | exact Hname].
Qed.

Lemma dag_name_is_stem_witness :
  dag_name "/opt/airflow/dags/optimize_geometry.py" = "optimize_geometry".
Proof.
  exact (proj1 (dag_name_is_stem "/opt/airflow/dags" "optimize_geometry" "py"
                  eq_refl eq_refl eq_refl eq_refl)).
Defined.

Lemma basename_no_slash (p : string) : has_char "/" (basename p) = false.
Proof.
  unfold basename. induction p as [|a p IH]; [reflexivity|].
  cbn [rfind]. pose proof (rfind_lower "/" p) as Hlow.
  destruct (Z.leb_spec 0 (rfind "/" p)) as [Hge|Hlt].
  - replace (Z.to_nat (rfind "/" p + 1 + 1)) with (S (Z.to_nat (rfind "/" p + 1))) by lia.
    exact IH.
  - replace (rfind "/" p) with (-1) in IH by lia. cbn [Z.to_nat Z.add drop] in IH.
    change (Z.to_nat (-1 + 1)) with O in IH. cbn [drop] in IH.
    destruct (Ascii.eqb a "/") eqn:Ha.
    + exact IH.
    + change (Z.to_nat (-1 + 1)) with O. cbn [drop has_char].
      rewrite Ha, IH. reflexivity.
Qed.

Lemma has_char_take (c : ascii) (n : nat) (s : string) :
  has_char c s = false -> has_char c (take n s) = false.
Proof.
  revert s. induction n as [|n IH]; intros [|a s]; try reflexivity.
  cbn [has_char take]. intros [Ha Hs]%orb_false_elim. rewrite Ha, (IH s Hs). reflexivity.
Qed.

(** X25. Whatever the path of the file, the name of the DAG has no slash
    in it: it is taken from the last component of the path. *)
Theorem dag_name_no_slash (file : string) : has_char "/" (dag_name file) = false.
Proof.
  unfold dag_name, splitext. pose proof (basename_no_slash file) as Hbase.
  destruct (_ && _); cbn [fst].
  - apply has_char_take, Hbase.
  - exact Hbase.
Qed.

End DagMore.
